(** * BoatFanControl: the sensor averaging and fan decision engine

    A shallow embedding of the two firmware sketches of the repository,

    - [Software/BoatFanControl/BoatFanControl.ino], the 5-sample firmware
      (module [Software]), and
    - [Code/BoatFanControl/BoatFanControl.ino], the 10-sample firmware
      (module [Code]),

    as they are compiled for the DigiSpark (ATtiny85, avr-gcc): [byte] is
    8 bits, [int] and [unsigned int] are 16 bits, [long] and
    [unsigned long] are 32 bits, [float] and [double] are both IEEE
    binary32.  Integers are modelled in [Z] with the wrap-around of every
    unsigned operation written out; binary32 arithmetic is the executable
    specification [SpecFloat] of the standard library at precision 24.

    The sketches are modelled as built without [DEVEL] (the harness that
    simulates the sensor over USB); the limits that [BENCH] overrides are a
    parameter of type [build]. *)

From Stdlib Require Import ZArith List Bool Lia QArith Qround SpecFloat Ascii.
From stdpp Require Import base list.
Import ListNotations.
Open Scope Z_scope.

(** ** Machine integers *)

Definition u8 (z : Z) : Z := z mod 256.
Definition u16 (z : Z) : Z := z mod 65536.
Definition u32 (z : Z) : Z := z mod 4294967296.

(** ** IEEE binary32, the [float] of avr-gcc *)

Module Float32.

Definition prec : Z := 24.
Definition emax : Z := 128.

(** Conversion of an integer to [float] (round to nearest even; exact
    below 2^24). *)
Definition of_int (n : Z) : spec_float := binary_normalize prec emax n 0 false.

Definition add : spec_float -> spec_float -> spec_float := SFadd prec emax.
Definition sub : spec_float -> spec_float -> spec_float := SFsub prec emax.
Definition div : spec_float -> spec_float -> spec_float := SFdiv prec emax.

(** The literal [0.5]. *)
Definition half : spec_float := S754_finite false 8388608 (-24).

(** Conversion of a [float] to an integer type: the fraction is
    discarded (truncation toward zero). *)
Definition to_int (f : spec_float) : Z :=
  match f with
  | S754_finite s m e =>
      let a := if 0 <=? e then Zpos m * 2 ^ e else Zpos m / 2 ^ (- e) in
      if s then - a else a
  | _ => 0
  end.

(** [ceil] of math.h: the least integral value not below the argument,
    as a [float]. *)
Definition ceil (f : spec_float) : spec_float :=
  match f with
  | S754_finite s m e =>
      if 0 <=? e then f
      else
        let z := if s then Zneg m else Zpos m in
        let c := - ((- z) / 2 ^ (- e)) in
        binary_normalize prec emax c 0 s
  | _ => f
  end.

End Float32.

(** ** Macros of the Arduino core (Arduino.h) used by the sketches *)

Module Arduino.

(** [#define constrain(amt,low,high)
      ((amt)<(low)?(low):((amt)>(high)?(high):(amt)))] *)
Definition constrain (amt low high : Z) : Z :=
  if amt <? low then low else if high <? amt then high else amt.

(** [#define min(a,b) ((a)<(b)?(a):(b))] *)
Definition min (a b : Z) : Z := if a <? b then a else b.

(** [#define max(a,b) ((a)>(b)?(a):(b))] *)
Definition max (a b : Z) : Z := if b <? a then a else b.

(** [#define round(x) ((x)>=0?(long)((x)+0.5):(long)((x)-0.5))] *)
Definition round (x : spec_float) : Z :=
  if SFleb (Float32.of_int 0) x
  then Float32.to_int (Float32.add x Float32.half)
  else Float32.to_int (Float32.sub x Float32.half).

End Arduino.

(** ** What both sketches share *)

(** [enum powerstates{off,low,high}] *)
Inductive powerstates : Set := off | low | high.

Definition powerstates_eqb (p q : powerstates) : bool :=
  match p, q with
  | off, off | low, low | high, high => true
  | _, _ => false
  end.

(** What the outside world hands to one pass of [loop()]: the outcome of
    the button polling done while waiting for the next cycle, the values
    returned by the successive calls of [millis()], and the sensor
    readings with the status of the DHT11 driver
    ([strcmp(dht.getStatusString(),"OK") == 0]).  The DHT11 "only returns
    whole integer results" (header of the sketch), so the readings are
    integers. *)
Record env : Set := mkEnv {
  pressed : bool;        (* a press was seen in the waiting loop *)
  millis_resume : Z;     (* millis() in the auto-resume test *)
  millis_button : Z;     (* millis() stored in lastButton *)
  millis_read : Z;       (* millis() stored in lastRead *)
  getTemperature : Z;    (* dht.getTemperature() *)
  getHumidity : Z;       (* dht.getHumidity() *)
  analogRead : Z;        (* analogRead(VIN_APIN) *)
  statusOK : bool        (* the DHT11 status string is "OK" *)
}.

(** What one pass of [loop()] does to the pins. *)
Inductive event : Set :=
| flashFast (f p : Z)      (* flashFast(f,p): f flashes of the LED at level p *)
| ledWrite (p : Z)         (* analogWrite(DHT_PIN,p) *)
| fanWrite (p : Z).        (* analogWrite(FAN_PIN,p) *)

(** The running total, maximum and minimum kept by the averaging loop:
    [tot+=x; if (x < min) min=x; if (x > max) max=x;] with an
    [unsigned int] total. *)
Definition scan_step (acc : Z * Z * Z) (x : Z) : Z * Z * Z :=
  let '(tot, mx, mn) := acc in
  (u16 (tot + x), (if mx <? x then x else mx), (if x <? mn then x else mn)).

(** The whole loop over one channel; [min0] is the initial minimum (255 for
    temperature and humidity, 65534 for the voltage), the total and the
    maximum start at 0. *)
Definition scan (min0 : Z) (l : list Z) : Z * Z * Z :=
  fold_left scan_step l (0, 0, min0).

(** [tot = tot - max - min] in [unsigned int]. *)
Definition trim (acc : Z * Z * Z) : Z :=
  let '(tot, mx, mn) := acc in u16 (u16 (tot - mx) - mn).

(** ** The 5-sample firmware: Software/BoatFanControl/BoatFanControl.ino *)

Module Software.

(** Values *)
Definition FAN_OFF : Z := 0.
Definition FAN_LOW : Z := 95.
Definition FAN_HIGH : Z := 255.
Definition LED_OFF : Z := 0.
Definition LED_LOW : Z := 10.
Definition LED_HIGH : Z := 255.

(** Limits that no build overrides *)
Definition TEMP_TRIGGER : Z := 28.
Definition HUMI_TRIGGER : Z := 70.
Definition TEMP_RISE : Z := 40.
Definition HUMI_RISE : Z := 8.

(** Limits and timings that [#ifdef BENCH] and [#ifdef DEVEL] override. *)
Record build : Set := mkBuild {
  VIN_LOW : Z;
  VIN_GOOD : Z;
  CYCLETIME : Z;
  RESUMETIME : Z
}.

Definition production : build :=
  {| VIN_LOW := 222; VIN_GOOD := 235; CYCLETIME := 20000; RESUMETIME := 10800000 |}.

Definition bench : build :=
  {| VIN_LOW := 151; VIN_GOOD := 188; CYCLETIME := 3000; RESUMETIME := 300000 |}.

(** The globals of the sketch. *)
Record state : Set := mkState {
  t : list Z;            (* byte t[5] *)
  h : list Z;            (* byte h[5] *)
  v : list Z;            (* unsigned int v[5] *)
  power : powerstates;
  lastRead : Z;          (* unsigned long *)
  lastButton : Z;        (* unsigned long *)
  index : Z;             (* int *)
  fan : Z;               (* byte *)
  led : Z                (* byte *)
}.

Definition set_t (x : list Z) (s : state) : state :=
  mkState x (h s) (v s) (power s) (lastRead s) (lastButton s) (index s) (fan s) (led s).
Definition set_h (x : list Z) (s : state) : state :=
  mkState (t s) x (v s) (power s) (lastRead s) (lastButton s) (index s) (fan s) (led s).
Definition set_v (x : list Z) (s : state) : state :=
  mkState (t s) (h s) x (power s) (lastRead s) (lastButton s) (index s) (fan s) (led s).
Definition set_power (x : powerstates) (s : state) : state :=
  mkState (t s) (h s) (v s) x (lastRead s) (lastButton s) (index s) (fan s) (led s).
Definition set_lastRead (x : Z) (s : state) : state :=
  mkState (t s) (h s) (v s) (power s) x (lastButton s) (index s) (fan s) (led s).
Definition set_lastButton (x : Z) (s : state) : state :=
  mkState (t s) (h s) (v s) (power s) (lastRead s) x (index s) (fan s) (led s).
Definition set_index (x : Z) (s : state) : state :=
  mkState (t s) (h s) (v s) (power s) (lastRead s) (lastButton s) x (fan s) (led s).
Definition set_fan (x : Z) (s : state) : state :=
  mkState (t s) (h s) (v s) (power s) (lastRead s) (lastButton s) (index s) x (led s).
Definition set_led (x : Z) (s : state) : state :=
  mkState (t s) (h s) (v s) (power s) (lastRead s) (lastButton s) (index s) (fan s) x.

(** [setup()]: the buffers are filled with the first reading that the
    DHT11 driver reports as good, given here as [e]; the other globals
    have their initialisers. *)
Definition setup (b : build) (e : env) : state :=
  let t0 := u8 (Arduino.constrain (getTemperature e) 0 40) in
  let h0 := u8 (Arduino.constrain (getHumidity e) 0 100) in
  let v0 := u16 (Arduino.constrain (analogRead e) 0 350) in
  {| t := replicate 5 t0; h := replicate 5 h0; v := replicate 5 v0;
     power := high;
     lastRead := u32 (- CYCLETIME b);
     lastButton := 0;
     index := 0; fan := 0; led := 255 |}.

(** The auto-resume test (l.239):
    [(power != high) && (millis() - lastButton > RESUMETIME)],
    the subtraction being one of [unsigned long]. *)
Definition auto_resume (b : build) (e : env) (s : state) : bool :=
  negb (powerstates_eqb (power s) high)
  && (RESUMETIME b <? u32 (millis_resume e - lastButton s)).

(** The [switch (power)] of the button handler (l.243-257). *)
Definition change_power (s : state) : state * list event :=
  match power s with
  | off => (set_led LED_LOW (set_power low s), [flashFast 4 LED_HIGH])
  | low => (set_led LED_HIGH (set_power high s), [flashFast 6 LED_HIGH])
  | high => (set_led LED_OFF (set_power off s), [flashFast 2 LED_HIGH])
  end.

(** The body of [if (button)] (l.242-260). *)
Definition process_button (e : env) (s : state) : state * list event :=
  let '(s1, out) := change_power s in
  (set_lastButton (millis_button e) s1, out).

(** The readings (l.272-289). [volt] is a [float] that is stored in an
    [unsigned int] slot. *)
Definition readings (e : env) (s : state) : state * list event :=
  let temp := u8 (Arduino.constrain (getTemperature e) 0 40) in
  let humi := u8 (Arduino.constrain (getHumidity e) 0 100) in
  let volt := Float32.of_int (Arduino.constrain (analogRead e) 100 350) in
  if negb (statusOK e) then
    (s, [flashFast 10 (Arduino.max (led s) LED_LOW)])
  else
    let i := Z.rem (index s + 1) 5 in
    (set_v (<[Z.to_nat i := u16 (Float32.to_int volt)]> (v s))
       (set_h (<[Z.to_nat i := humi]> (h s))
          (set_t (<[Z.to_nat i := temp]> (t s))
             (set_index i s))),
     []).

(** [round(float(tot) / 3)] stored in an [unsigned int] (l.319-321). *)
Definition average (tot : Z) : Z :=
  u16 (Arduino.round (Float32.div (Float32.of_int tot) (Float32.of_int 3))).

Definition tempAvg (s : state) : Z := average (trim (scan 255 (t s))).
Definition humiAvg (s : state) : Z := average (trim (scan 255 (h s))).
Definition voltAvg (s : state) : Z := average (trim (scan 65534 (v s))).

(** The locals [fanT] and [fanH] of the good-battery branch (l.343-352):
    [unsigned int], and so is the arithmetic that computes them. *)
Definition fanT (tempAvg : Z) : Z :=
  if TEMP_TRIGGER <=? tempAvg
  then Arduino.min (u16 (FAN_LOW + u16 (u16 (tempAvg - TEMP_TRIGGER) * TEMP_RISE))) FAN_HIGH
  else 0.

Definition fanH (humiAvg : Z) : Z :=
  if HUMI_TRIGGER <=? humiAvg
  then Arduino.min (u16 (FAN_LOW + u16 (u16 (humiAvg - HUMI_TRIGGER) * HUMI_RISE))) FAN_HIGH
  else 0.

(** "Process values and decide on fan settings" (l.324-354): the value
    assigned to [fan], a [byte]. *)
Definition decide_fan (b : build) (tempAvg humiAvg voltAvg : Z) (power : powerstates) : Z :=
  if (voltAvg <? VIN_LOW b) || powerstates_eqb power off then
    0
  else if (voltAvg <? VIN_GOOD b) || powerstates_eqb power low then
    if (TEMP_TRIGGER <? tempAvg) || (HUMI_TRIGGER <? humiAvg)
    then FAN_LOW else FAN_OFF
  else
    u8 (Arduino.max (fanT tempAvg) (fanH humiAvg)).

(** One pass of [loop()], from the end of the waiting loop (l.238) to the
    end.  The waiting loop itself (l.203-236) only polls the clock and the
    button; its outcome is [pressed e]. *)
Definition loop (b : build) (e : env) (s : state) : state * list event :=
  let button := if auto_resume b e s then true else pressed e in
  let '(s1, out1) := if button then process_button e s else (s, []) in
  let '(s2, out2) := readings e s1 in
  let s3 := set_lastRead (millis_read e) s2 in
  let f := decide_fan b (tempAvg s3) (humiAvg s3) (voltAvg s3) (power s3) in
  (set_fan f s3, out1 ++ out2 ++ [ledWrite (led s2); fanWrite f]).

(** The state after a sequence of passes. *)
Fixpoint run (b : build) (es : list env) (s : state) : state :=
  match es with
  | [] => s
  | e :: es' => run b es' (fst (loop b e s))
  end.

(** The value of [millis()] recorded at the most recent pass of the run
    that changed the power mode, [t0] when none did. *)
Fixpoint last_change (b : build) (es : list env) (s : state) (t0 : Z) : Z :=
  match es with
  | [] => t0
  | e :: es' =>
      let s' := fst (loop b e s) in
      last_change b es' s'
        (if powerstates_eqb (power s') (power s) then t0 else millis_button e)
  end.

End Software.

(** ** The 10-sample firmware: Code/BoatFanControl/BoatFanControl.ino *)

Module Code.

(** Values *)
Definition FAN_OFF : Z := 0.
Definition FAN_LOW : Z := 96.
Definition FAN_HIGH : Z := 255.
Definition LED_OFF : Z := 0.
Definition LED_LOW : Z := 10.
Definition LED_HIGH : Z := 255.

(** Limits.  [TEMP_MAX] and [HUMI_MAX] are defined by the sketch and used
    nowhere in it. *)
Definition VIN_LOW : Z := 222.
Definition VIN_GOOD : Z := 235.
Definition TEMP_MAX : Z := 28.
Definition HUMI_MAX : Z := 75.
Definition CYCLETIME : Z := 10000.

(** The globals of the sketch; here [button] is one of them. *)
Record state : Set := mkState {
  t : list Z;            (* byte t[10] *)
  h : list Z;            (* byte h[10] *)
  v : list Z;            (* unsigned int v[10] *)
  lastRead : Z;          (* unsigned long *)
  index : Z;             (* int *)
  button : bool;
  power : powerstates;
  fan : Z;               (* byte *)
  led : Z                (* byte *)
}.

Definition set_t (x : list Z) (s : state) : state :=
  mkState x (h s) (v s) (lastRead s) (index s) (button s) (power s) (fan s) (led s).
Definition set_h (x : list Z) (s : state) : state :=
  mkState (t s) x (v s) (lastRead s) (index s) (button s) (power s) (fan s) (led s).
Definition set_v (x : list Z) (s : state) : state :=
  mkState (t s) (h s) x (lastRead s) (index s) (button s) (power s) (fan s) (led s).
Definition set_lastRead (x : Z) (s : state) : state :=
  mkState (t s) (h s) (v s) x (index s) (button s) (power s) (fan s) (led s).
Definition set_index (x : Z) (s : state) : state :=
  mkState (t s) (h s) (v s) (lastRead s) x (button s) (power s) (fan s) (led s).
Definition set_button (x : bool) (s : state) : state :=
  mkState (t s) (h s) (v s) (lastRead s) (index s) x (power s) (fan s) (led s).
Definition set_power (x : powerstates) (s : state) : state :=
  mkState (t s) (h s) (v s) (lastRead s) (index s) (button s) x (fan s) (led s).
Definition set_fan (x : Z) (s : state) : state :=
  mkState (t s) (h s) (v s) (lastRead s) (index s) (button s) (power s) x (led s).
Definition set_led (x : Z) (s : state) : state :=
  mkState (t s) (h s) (v s) (lastRead s) (index s) (button s) (power s) (fan s) x.

(** [setup()], from the first reading [e] that the driver reports as
    good. *)
Definition setup (e : env) : state :=
  let t0 := u8 (Arduino.constrain (getTemperature e) 0 40) in
  let h0 := u8 (Arduino.constrain (getHumidity e) 0 100) in
  let v0 := u16 (Arduino.constrain (analogRead e) 0 350) in
  {| t := replicate 10 t0; h := replicate 10 h0; v := replicate 10 v0;
     lastRead := u32 (- CYCLETIME);
     index := 0; button := false; power := high; fan := 0; led := 255 |}.

(** The waiting loop (l.146-170) as far as [button] goes: a press sets
    it, nothing there clears it. *)
Definition wait (e : env) (s : state) : state :=
  if pressed e then (if button s then s else set_button true s) else s.

(** The [switch (power)] of the button handler (l.178-191). *)
Definition change_power (s : state) : state * list event :=
  match power s with
  | off => (set_led LED_LOW (set_power low s), [flashFast 2 LED_HIGH])
  | low => (set_led LED_HIGH (set_power high s), [flashFast 5 LED_HIGH])
  | high => (set_led LED_OFF (set_power off s), [flashFast 1 LED_HIGH])
  end.

(** [if (button) { ... } button=false;] (l.177-194). *)
Definition process_button (s : state) : state * list event :=
  let '(s1, out) := if button s then change_power s else (s, []) in
  (set_button false s1, out).

(** The readings (l.206-217). *)
Definition readings (e : env) (s : state) : state * list event :=
  let temp := u8 (Arduino.constrain (getTemperature e) 0 40) in
  let humi := u8 (Arduino.constrain (getHumidity e) 0 100) in
  let volt := Float32.of_int (Arduino.constrain (analogRead e) 0 350) in
  if negb (statusOK e) then
    (s, [flashFast 3 (led s)])
  else
    let i := Z.rem (index s + 1) 10 in
    (set_v (<[Z.to_nat i := u16 (Float32.to_int volt)]> (v s))
       (set_h (<[Z.to_nat i := humi]> (h s))
          (set_t (<[Z.to_nat i := temp]> (t s))
             (set_index i s))),
     []).

(** [ceil(tot / 8)] stored in an [unsigned int] (l.250-255); [tot] is an
    [unsigned int], so [tot / 8] is a division of integers. *)
Definition average (tot : Z) : Z :=
  u16 (Float32.to_int (Float32.ceil (Float32.of_int (tot / 8)))).

Definition tempAvg (s : state) : Z := average (trim (scan 255 (t s))).
Definition humiAvg (s : state) : Z := average (trim (scan 255 (h s))).
Definition voltAvg (s : state) : Z := average (trim (scan 65534 (v s))).

(** "Decide on fan settings" (l.258-264): the averages of temperature and
    humidity are computed and not consulted. *)
Definition decide_fan (tempAvg humiAvg voltAvg : Z) (power : powerstates) : Z :=
  if (voltAvg <? VIN_LOW) || powerstates_eqb power off then 0
  else if (voltAvg <? VIN_GOOD) || powerstates_eqb power low then FAN_LOW
  else FAN_HIGH.

(** One pass of [loop()]. *)
Definition loop (e : env) (s : state) : state * list event :=
  let s0 := wait e s in
  let '(s1, out1) := process_button s0 in
  let '(s2, out2) := readings e s1 in
  let s3 := set_lastRead (millis_read e) s2 in
  let f := decide_fan (tempAvg s3) (humiAvg s3) (voltAvg s3) (power s3) in
  (set_fan f s3, out1 ++ out2 ++ [ledWrite (led s2); fanWrite f]).

Fixpoint run (es : list env) (s : state) : state :=
  match es with
  | [] => s
  | e :: es' => run es' (fst (loop e s))
  end.

End Code.

(** ** The words of the specification, for comparison with the code *)

Module Spec.

Fixpoint sum (l : list Z) : Z :=
  match l with
  | [] => 0
  | x :: l' => x + sum l'
  end.

Fixpoint maximum (l : list Z) : Z :=
  match l with
  | [] => 0
  | [x] => x
  | x :: l' => Z.max x (maximum l')
  end.

Fixpoint minimum (l : list Z) : Z :=
  match l with
  | [] => 0
  | [x] => x
  | x :: l' => Z.min x (minimum l')
  end.

(** Rounding of a rational to the nearest integer, a half going away from
    zero. *)
Definition round_half_away (q : Q) : Z :=
  if Qle_bool 0 q then Qfloor (q + (1 # 2)) else Qceiling (q - (1 # 2)).

(** The sum of the samples minus one maximum and one minimum. *)
Definition trimmed_total (l : list Z) : Z := sum l - maximum l - minimum l.

(** "(sum - max - min) divided by (N-2)", the division being exact, "then
    rounded to the nearest integer". *)
Definition trimmed_average (l : list Z) : Z :=
  round_half_away (inject_Z (trimmed_total l) / inject_Z (Z.of_nat (length l) - 2)).

(** One step of the fixed cycle Off -> Low -> High -> Off. *)
Definition rotate (p : powerstates) : powerstates :=
  match p with
  | off => low
  | low => high
  | high => off
  end.

(** The proportional duty of the third rule of the decision policy, over
    unbounded integers. *)
Definition ramp (base trigger slope top x : Z) : Z :=
  if trigger <=? x then Z.min (base + (x - trigger) * slope) top else 0.

End Spec.

(** ** The waiting loops at the head of [loop()] *)

Module Waiting.

(** The loops poll what the sketch cannot foresee, the clock and the button
    pin.  [ticks] are the values that the successive calls of [millis()]
    return and [lows] the successive outcomes of
    [!digitalRead(BUTTON_PIN)] ([true]: the pin reads low, the button is
    down).  A loop that runs out of either before it ends gives [None]. *)

(** [while (!digitalRead(BUTTON_PIN)) myDelay(10);] (Software l.229): what
    is left of [lows] once the button is found released. *)
Fixpoint hold (lows : list bool) : option (list bool) :=
  match lows with
  | [] => None
  | true :: lows' => hold lows'
  | false :: lows' => Some lows'
  end.

(** The waiting loop of the 5-sample firmware (l.203-236, without DEVEL):
    the values of [button] and [lastRead] when it ends, and what is left of
    the two sequences. *)
Fixpoint software (CYCLETIME : Z) (ticks : list Z) (lows : list bool)
    (button : bool) (lastRead : Z) : option (bool * Z * list Z * list bool) :=
  match ticks with
  | [] => None
  | m :: ticks1 =>
      if u32 (m - lastRead) <? CYCLETIME then
        match lows with
        | [] => None
        | false :: lows1 => software CYCLETIME ticks1 lows1 button lastRead
        | true :: [] => None
        | true :: false :: lows2 => software CYCLETIME ticks1 lows2 button lastRead
        | true :: true :: lows2 =>
            match hold lows2, ticks1 with
            | Some lows3, m2 :: ticks2 =>
                software CYCLETIME ticks2 lows3 true (u32 (m2 - CYCLETIME))
            | _, _ => None
            end
        end
      else Some (button, lastRead, ticks1, lows)
  end.

(** The waiting loop of the 10-sample firmware (l.146-170, without DEVEL):
    no debounce, and [button] is the global that the pass clears later. *)
Fixpoint code (ticks : list Z) (lows : list bool)
    (button : bool) (lastRead : Z) : option (bool * Z * list Z * list bool) :=
  match ticks with
  | [] => None
  | m :: ticks1 =>
      if u32 (m - lastRead) <? Code.CYCLETIME then
        match lows with
        | [] => None
        | down :: lows1 =>
            if down && negb button then
              match ticks1 with
              | [] => None
              | m2 :: ticks2 => code ticks2 lows1 true (u32 (m2 - Code.CYCLETIME))
              end
            else code ticks1 lows1 button lastRead
        end
      else Some (button, lastRead, ticks1, lows)
  end.

End Waiting.

(** ** The first reading of [setup()] *)

Module Setup.

(** The [do ... while] of [setup()] (Software l.171-179, Code l.118-123):
    [attempts] are the readings that the driver hands out one after the
    other; the loop ends with the first one that it reports as good.  The
    5-sample firmware flashes the LED three times before every attempt,
    the 10-sample firmware once the buffers are filled. *)
Fixpoint software (b : Software.build) (attempts : list env)
    : option (Software.state * list event) :=
  match attempts with
  | [] => None
  | e :: rest =>
      if statusOK e then
        Some (Software.setup b e, [flashFast 3 Software.LED_HIGH])
      else
        match software b rest with
        | Some (s, out) => Some (s, flashFast 3 Software.LED_HIGH :: out)
        | None => None
        end
  end.

Fixpoint code (attempts : list env) : option (Code.state * list event) :=
  match attempts with
  | [] => None
  | e :: rest =>
      if statusOK e then Some (Code.setup e, [flashFast 3 Code.LED_HIGH])
      else code rest
  end.

End Setup.

(** ** The DEVEL build: readings simulated over DigiUSB *)

Module Devel.

(** [byte Ptemp = 24; byte Phumi = 60; int Pvolt = 238;] *)
Record sim : Set := mkSim {
  Ptemp : Z;
  Phumi : Z;
  Pvolt : Z;
  button : bool;     (* set by 'b' *)
  lastRead : Z       (* moved by 'b' *)
}.

(** One character [c] read from DigiUSB (Software l.209-221, Code
    l.150-159); [now] is [millis()].  [vfloor] is the floor of ['v'], 100 in
    the 5-sample firmware and 0 in the 10-sample one. *)
Definition command (vfloor CYCLETIME : Z) (now : Z) (c : ascii) (s : sim) : sim :=
  if Ascii.eqb c "T" then
    mkSim (u8 (Arduino.min (Ptemp s + 1) 40)) (Phumi s) (Pvolt s) (button s) (lastRead s)
  else if Ascii.eqb c "t" then
    mkSim (u8 (Arduino.max (Ptemp s - 1) 0)) (Phumi s) (Pvolt s) (button s) (lastRead s)
  else if Ascii.eqb c "H" then
    mkSim (Ptemp s) (u8 (Arduino.min (Phumi s + 1) 100)) (Pvolt s) (button s) (lastRead s)
  else if Ascii.eqb c "h" then
    mkSim (Ptemp s) (u8 (Arduino.max (Phumi s - 1) 0)) (Pvolt s) (button s) (lastRead s)
  else if Ascii.eqb c "V" then
    mkSim (Ptemp s) (Phumi s) (Arduino.min (Pvolt s + 1) 350) (button s) (lastRead s)
  else if Ascii.eqb c "v" then
    mkSim (Ptemp s) (Phumi s) (Arduino.max (Pvolt s - 1) vfloor) (button s) (lastRead s)
  else if Ascii.eqb c "b" then
    mkSim (Ptemp s) (Phumi s) (Pvolt s) true (u32 (now - CYCLETIME))
  else s.

(** [while(DigiUSB.available()) { char s = DigiUSB.read(); switch (s) ... }]
    over the characters that are waiting, each with the [millis()] of its
    turn. *)
Definition commands (vfloor CYCLETIME : Z) (cs : list (ascii * Z)) (s : sim) : sim :=
  fold_left (fun s c => command vfloor CYCLETIME (snd c) (fst c) s) cs s.

(** The readings of a pass in the DEVEL build of the 5-sample firmware
    (l.266-270): the simulated values are stored as they are. *)
Definition readings (s : sim) (st : Software.state) : Software.state :=
  let i := Z.rem (Software.index st + 1) 5 in
  Software.set_v (<[Z.to_nat i := u16 (Pvolt s)]> (Software.v st))
    (Software.set_h (<[Z.to_nat i := Phumi s]> (Software.h st))
       (Software.set_t (<[Z.to_nat i := Ptemp s]> (Software.t st))
          (Software.set_index i st))).

(** The simulated values when the sketch starts; [lastRead0] is the
    initial [lastRead]. *)
Definition boot (lastRead0 : Z) : sim := mkSim 24 60 238 false lastRead0.

(** The ranges that the real readings are constrained to. *)
Definition in_range (vfloor : Z) (s : sim) : Prop :=
  0 <= Ptemp s <= 40 /\ 0 <= Phumi s <= 100 /\ vfloor <= Pvolt s <= 350.

End Devel.

(** ** The calibration sketch: Code/SensorCalibrate/SensorCalibrate.ino *)

Module Calibrate.

Definition mul : spec_float -> spec_float -> spec_float := SFmul Float32.prec Float32.emax.

(** [#define VOLTAGESCALE 0.0531]: the [float] nearest to 531/10000. *)
Definition VOLTAGESCALE : spec_float :=
  Float32.div (Float32.of_int 531) (Float32.of_int 10000).

(** [round(tt/8)] stored in an [unsigned int] (l.56, l.58): [tt] is an
    [unsigned int], the quotient is one of integers. *)
Definition average (tot : Z) : Z :=
  u16 (Arduino.round (Float32.of_int (tot / 8))).

(** [float mv = vt * VOLTAGESCALE / 8;] (l.60) *)
Definition mv (vt : Z) : spec_float :=
  Float32.div (mul (Float32.of_int vt) VOLTAGESCALE) (Float32.of_int 8).

(** The two numbers printed on either side of the point (l.84-86):
    [int(mv)] and [int(mv*10)%10]. *)
Definition volts (vt : Z) : Z * Z :=
  (Float32.to_int (mv vt), Z.rem (Float32.to_int (mul (mv vt) (Float32.of_int 10))) 10).

(** What one pass of [loop()] prints after the ten raw lines, from the ten
    readings of each channel (l.35-60, l.80-86): temperature, humidity, and
    the voltage as two numbers. *)
Definition report (t h v : list Z) : Z * Z * (Z * Z) :=
  (average (trim (scan 255 t)), average (trim (scan 255 h)), volts (trim (scan 65534 v))).

End Calibrate.

(** ** Auxiliary definitions of the proofs *)

(** [p] holds of every integer from 0 up to [n], [n] excluded. *)
Definition below (n : nat) (p : Z -> bool) : bool :=
  List.forallb p (List.map Z.of_nat (List.seq 0 n)).

(** A buffer of [n] samples between 0 and [top]. *)
Definition samples (n : nat) (top : Z) (l : list Z) : Prop :=
  length l = n /\ Forall (fun x => 0 <= x <= top) l.

(** The buffers of the 5-sample firmware hold what the readings are
    constrained to, and [index] stays within them. *)
Definition Software_wf (s : Software.state) : Prop :=
  samples 5 40 (Software.t s) /\ samples 5 100 (Software.h s) /\
  samples 5 350 (Software.v s) /\ 0 <= Software.index s < 5.

(** The same for the 10-sample firmware, where moreover the global [button]
    is clear whenever a pass of [loop()] begins. *)
Definition Code_wf (s : Code.state) : Prop :=
  samples 10 40 (Code.t s) /\ samples 10 100 (Code.h s) /\
  samples 10 350 (Code.v s) /\ 0 <= Code.index s < 10 /\
  Code.button s = false.

(** The order Off < Low < High of the power modes. *)
Definition power_rank (p : powerstates) : Z :=
  match p with
  | off => 0
  | low => 1
  | high => 2
  end.

(** The LED level that goes with a mode in the button handler of the
    5-sample firmware, and the same for the 10-sample one. *)
Definition Software_led_of (p : powerstates) : Z :=
  match p with
  | off => Software.LED_OFF
  | low => Software.LED_LOW
  | high => Software.LED_HIGH
  end.

Definition Code_led_of (p : powerstates) : Z :=
  match p with
  | off => Code.LED_OFF
  | low => Code.LED_LOW
  | high => Code.LED_HIGH
  end.


(** * Proofs *)

(** ** Machine arithmetic *)

Lemma below_spec (n : nat) (p : Z -> bool) :
  below n p = true -> forall z, 0 <= z < Z.of_nat n -> p z = true.
Proof.
  unfold below. intros Hall z Hz.
  rewrite List.forallb_forall in Hall. apply Hall.
  apply List.in_map_iff. exists (Z.to_nat z). split; [lia|].
  apply List.in_seq. lia.
Qed.

Lemma u8_small z : 0 <= z < 256 -> u8 z = z.
Proof. intros. unfold u8. apply Z.mod_small. lia. Qed.

Lemma u16_small z : 0 <= z < 65536 -> u16 z = z.
Proof. intros. unfold u16. apply Z.mod_small. lia. Qed.

Lemma u16_range z : 0 <= u16 z < 65536.
Proof. unfold u16. apply Z.mod_pos_bound. lia. Qed.

Lemma max_is_Zmax a b : Arduino.max a b = Z.max a b.
Proof. unfold Arduino.max. destruct (Z.ltb_spec b a); lia. Qed.

Lemma min_is_Zmin a b : Arduino.min a b = Z.min a b.
Proof. unfold Arduino.min. destruct (Z.ltb_spec a b); lia. Qed.

Lemma constrain_range amt lo hi :
  lo <= hi -> lo <= Arduino.constrain amt lo hi <= hi.
Proof.
  intros. unfold Arduino.constrain.
  destruct (Z.ltb_spec amt lo); [lia|]. destruct (Z.ltb_spec hi amt); lia.
Qed.

(** An integer that fits the mantissa survives the trip through [float]. *)
Lemma float_int_roundtrip z :
  0 <= z < 512 -> u16 (Float32.to_int (Float32.of_int z)) = z.
Proof.
  intros Hz.
  assert (Hall : below 512 (fun z => u16 (Float32.to_int (Float32.of_int z)) =? z) = true)
    by (vm_compute; reflexivity).
  apply Z.eqb_eq. apply (below_spec _ _ Hall). lia.
Qed.

(** [ceil] leaves a [float] that holds an integer as it is. *)
Lemma ceil_of_int z :
  0 <= z < 512 -> u16 (Float32.to_int (Float32.ceil (Float32.of_int z))) = z.
Proof.
  intros Hz.
  assert (Hall : below 512
            (fun z => u16 (Float32.to_int (Float32.ceil (Float32.of_int z))) =? z) = true)
    by (vm_compute; reflexivity).
  apply Z.eqb_eq. apply (below_spec _ _ Hall). lia.
Qed.

(** The binary32 computation [round(float(n) / 3)] yields the integer
    nearest to n/3 (n/3 is never half-way between two integers). *)
Lemma round_third n :
  0 <= n < 2048 -> Software.average n = (2 * n + 3) / 6.
Proof.
  intros Hn.
  assert (Hall : below 2048 (fun n => Software.average n =? (2 * n + 3) / 6) = true)
    by (vm_compute; reflexivity).
  apply Z.eqb_eq. apply (below_spec _ _ Hall). lia.
Qed.

Lemma Code_average_div n : 0 <= n < 4096 -> Code.average n = n / 8.
Proof.
  intros Hn. unfold Code.average. apply ceil_of_int.
  split; [apply Z.div_pos; lia | apply Z.div_lt_upper_bound; lia].
Qed.

(** ** The averaging loop *)

Lemma scan_step_eq tot mx mn x :
  scan_step (tot, mx, mn) x = (u16 (tot + x), Z.max mx x, Z.min mn x).
Proof.
  unfold scan_step. f_equal; [f_equal|].
  - destruct (Z.ltb_spec mx x); lia.
  - destruct (Z.ltb_spec x mn); lia.
Qed.

Lemma maximum_cons x y l : Spec.maximum (x :: y :: l) = Z.max x (Spec.maximum (y :: l)).
Proof. reflexivity. Qed.

Lemma minimum_cons x y l : Spec.minimum (x :: y :: l) = Z.min x (Spec.minimum (y :: l)).
Proof. reflexivity. Qed.

Lemma fold_left_max l : forall a x,
  fold_left Z.max (x :: l) a = Z.max a (Spec.maximum (x :: l)).
Proof.
  induction l as [|y l IH]; intros a x.
  - reflexivity.
  - rewrite maximum_cons. change (fold_left Z.max (x :: y :: l) a)
      with (fold_left Z.max (y :: l) (Z.max a x)).
    rewrite IH. lia.
Qed.

Lemma fold_left_min l : forall a x,
  fold_left Z.min (x :: l) a = Z.min a (Spec.minimum (x :: l)).
Proof.
  induction l as [|y l IH]; intros a x.
  - reflexivity.
  - rewrite minimum_cons. change (fold_left Z.min (x :: y :: l) a)
      with (fold_left Z.min (y :: l) (Z.min a x)).
    rewrite IH. lia.
Qed.

Lemma sum_bounds top l :
  Forall (fun x => 0 <= x <= top) l ->
  0 <= Spec.sum l <= Z.of_nat (length l) * top.
Proof.
  induction 1 as [|x l Hx _ IH]; cbn [Spec.sum length]; lia.
Qed.

(** The extremes of a non-empty buffer lie within the range of its
    samples, the minimum below the maximum. *)
Lemma extremes_bounds top l x :
  Forall (fun x => 0 <= x <= top) (x :: l) ->
  0 <= Spec.minimum (x :: l) /\
  Spec.minimum (x :: l) <= Spec.maximum (x :: l) /\
  Spec.maximum (x :: l) <= top.
Proof.
  revert x. induction l as [|y l IH]; intros x Hall.
  - apply Forall_inv in Hall. cbn. lia.
  - rewrite maximum_cons, minimum_cons.
    pose proof (Forall_inv Hall) as Hx. cbn beta in Hx.
    apply Forall_inv_tail in Hall. specialize (IH y Hall). lia.
Qed.

(** What is left of the total once one maximum and one minimum are taken
    off is the total of the samples in between. *)
Lemma trimmed_bounds top l x y :
  Forall (fun x => 0 <= x <= top) (x :: y :: l) ->
  Spec.maximum (x :: y :: l) + Spec.minimum (x :: y :: l) <= Spec.sum (x :: y :: l) /\
  Spec.sum (x :: y :: l) - Spec.maximum (x :: y :: l) - Spec.minimum (x :: y :: l)
    <= Z.of_nat (length l) * top.
Proof.
  revert x y. induction l as [|z l IH]; intros x y Hall.
  - pose proof (Forall_inv Hall) as Hx. cbn beta in Hx.
    pose proof (Forall_inv (Forall_inv_tail Hall)) as Hy. cbn beta in Hy.
    cbn. lia.
  - pose proof (Forall_inv Hall) as Hx. cbn beta in Hx.
    apply Forall_inv_tail in Hall.
    pose proof (extremes_bounds _ _ _ Hall) as Hext.
    specialize (IH y z Hall).
    rewrite (maximum_cons x), (minimum_cons x).
    change (Spec.sum (x :: y :: z :: l)) with (x + Spec.sum (y :: z :: l)).
    change (length (z :: l)) with (S (length l)).
    rewrite Nat2Z.inj_succ. lia.
Qed.

(** As long as the [unsigned int] total does not wrap, the loop computes
    the sum, the maximum and the minimum of the buffer. *)
Lemma scan_fold l : forall tot mx mn,
  0 <= tot -> Forall (fun x => 0 <= x) l -> tot + Spec.sum l < 65536 ->
  fold_left scan_step l (tot, mx, mn)
  = (tot + Spec.sum l, fold_left Z.max l mx, fold_left Z.min l mn).
Proof.
  induction l as [|x l IH]; intros tot mx mn Htot Hall Hsum.
  - cbn. f_equal. f_equal. lia.
  - pose proof (Forall_inv Hall) as Hx. cbn beta in Hx.
    apply Forall_inv_tail in Hall.
    assert (0 <= Spec.sum l).
    { clear - Hall. induction Hall; cbn [Spec.sum]; lia. }
    cbn [Spec.sum] in *. cbn [fold_left]. rewrite scan_step_eq.
    rewrite u16_small by lia. rewrite IH by (assumption || lia).
    f_equal. f_equal. lia.
Qed.

Lemma scan_exact min0 top l x :
  Forall (fun x => 0 <= x <= top) (x :: l) ->
  top <= min0 -> Z.of_nat (length (x :: l)) * top < 65536 ->
  scan min0 (x :: l)
  = (Spec.sum (x :: l), Spec.maximum (x :: l), Spec.minimum (x :: l)).
Proof.
  intros Hall Hmin Hlen. unfold scan.
  pose proof (sum_bounds _ _ Hall) as Hsum.
  pose proof (extremes_bounds _ _ _ Hall) as Hext.
  rewrite scan_fold.
  - rewrite fold_left_max, fold_left_min. f_equal; [f_equal|]; lia.
  - lia.
  - eapply Forall_impl; [exact Hall|]. cbn. intros; lia.
  - lia.
Qed.

Lemma trim_scan min0 top l x y :
  Forall (fun x => 0 <= x <= top) (x :: y :: l) ->
  top <= min0 -> Z.of_nat (length (x :: y :: l)) * top < 65536 ->
  trim (scan min0 (x :: y :: l))
  = Spec.sum (x :: y :: l) - Spec.maximum (x :: y :: l) - Spec.minimum (x :: y :: l).
Proof.
  intros Hall Hmin Hlen.
  rewrite (scan_exact min0 top) by assumption.
  pose proof (sum_bounds _ _ Hall) as Hsum.
  pose proof (extremes_bounds _ _ _ Hall) as Hext.
  pose proof (trimmed_bounds _ _ _ _ Hall) as Htrim.
  unfold trim. rewrite (u16_small (_ - Spec.maximum _)) by lia.
  apply u16_small. lia.
Qed.

(** ** Rounding to the nearest integer *)

Lemma round_half_away_quotient n d :
  0 <= n -> 0 < d ->
  Spec.round_half_away (inject_Z n / inject_Z d) = (2 * n + d) / (2 * d).
Proof.
  intros Hn Hd. destruct d as [|d|d]; try lia.
  unfold Spec.round_half_away, Qdiv, Qinv, Qmult, Qplus, Qle_bool, Qfloor, inject_Z.
  cbn [Qnum Qden Z.mul Pos.mul]. rewrite !Pos.mul_1_l.
  destruct (Z.leb_spec (0 * Z.pos d) (n * 1 * 1)); [|lia].
  f_equal; lia.
Qed.

(** A buffer of two samples or more. *)
Lemma samples_cons2 n top l :
  samples (S (S n)) top l ->
  exists x y l', l = x :: y :: l' /\ length l' = n.
Proof.
  intros [Hlen _]. destruct l as [|x [|y l']]; try discriminate.
  exists x, y, l'. split; [reflexivity|]. cbn in Hlen. lia.
Qed.

(** One channel of the 5-sample firmware: the average kept is the trimmed
    average of the specification. *)
Lemma Software_average_exact min0 top l :
  samples 5 top l -> top <= min0 -> top <= 350 ->
  Software.average (trim (scan min0 l)) = Spec.trimmed_average l
  /\ 0 <= Software.average (trim (scan min0 l)) <= top.
Proof.
  intros Hs Hmin Htop.
  destruct (samples_cons2 _ _ _ Hs) as (x & y & l' & -> & Hlen').
  destruct Hs as [Hlen Hall].
  pose proof (sum_bounds _ _ Hall) as Hsum.
  pose proof (extremes_bounds _ _ _ Hall) as Hext.
  pose proof (trimmed_bounds _ _ _ _ Hall) as Htrim.
  rewrite Hlen' in Htrim. rewrite Hlen in Hsum.
  rewrite (trim_scan min0 top) by (assumption || (rewrite Hlen; lia)).
  set (n := Spec.sum _ - Spec.maximum _ - Spec.minimum _) in *.
  rewrite round_third by lia.
  unfold Spec.trimmed_average, Spec.trimmed_total. fold n. rewrite Hlen.
  change (Z.of_nat 5 - 2) with 3.
  rewrite round_half_away_quotient by lia.
  change (2 * 3) with 6. split; [reflexivity|].
  split; [apply Z.div_pos; lia|].
  apply Z.lt_succ_r. apply Z.div_lt_upper_bound; lia.
Qed.

(** One channel of the 10-sample firmware: the average kept is the quotient
    of the trimmed total by 8, fraction dropped. *)
Lemma Code_average_exact min0 top l :
  samples 10 top l -> top <= min0 -> top <= 350 ->
  Code.average (trim (scan min0 l)) = Spec.trimmed_total l / 8
  /\ 0 <= Spec.trimmed_total l.
Proof.
  intros Hs Hmin Htop. unfold Spec.trimmed_total.
  destruct (samples_cons2 _ _ _ Hs) as (x & y & l' & -> & Hlen').
  destruct Hs as [Hlen Hall].
  pose proof (sum_bounds _ _ Hall) as Hsum.
  pose proof (extremes_bounds _ _ _ Hall) as Hext.
  pose proof (trimmed_bounds _ _ _ _ Hall) as Htrim.
  rewrite Hlen' in Htrim. rewrite Hlen in Hsum.
  rewrite (trim_scan min0 top) by (assumption || (rewrite Hlen; lia)).
  set (n := Spec.sum _ - Spec.maximum _ - Spec.minimum _) in *.
  split; [apply Code_average_div|]; lia.
Qed.

(** ** One pass of [loop()], field by field *)

Lemma samples_replicate n top x : 0 <= x <= top -> samples n top (replicate n x).
Proof.
  intros Hx. split; [apply length_replicate|].
  apply Forall_replicate. exact Hx.
Qed.

Lemma samples_insert n top l i x :
  samples n top l -> 0 <= x <= top -> samples n top (<[i:=x]> l).
Proof.
  intros [Hlen Hall] Hx. split; [rewrite length_insert; exact Hlen|].
  apply Forall_insert; assumption.
Qed.

Lemma samples_weaken n top top' l : top <= top' -> samples n top l -> samples n top' l.
Proof.
  intros Hle [Hlen Hall]. split; [exact Hlen|].
  eapply Forall_impl; [exact Hall|]. cbn. intros; lia.
Qed.

Lemma stored_byte amt top :
  0 <= top < 256 -> 0 <= u8 (Arduino.constrain amt 0 top) <= top.
Proof.
  intros Htop. pose proof (constrain_range amt 0 top ltac:(lia)).
  rewrite u8_small; lia.
Qed.

Lemma stored_volt amt lo :
  0 <= lo <= 350 ->
  0 <= u16 (Float32.to_int (Float32.of_int (Arduino.constrain amt lo 350))) <= 350.
Proof.
  intros Hlo. pose proof (constrain_range amt lo 350 ltac:(lia)).
  rewrite float_int_roundtrip; lia.
Qed.

Lemma rem_index i n : 0 <= i -> 0 < n -> 0 <= Z.rem (i + 1) n < n.
Proof. intros. apply Z.rem_bound_pos; lia. Qed.

(** The buffers and the write index after a pass: untouched unless the
    driver reports a good reading. *)
Lemma Software_loop_buffers b e s :
  let s' := fst (Software.loop b e s) in
  let i := Z.rem (Software.index s + 1) 5 in
  if statusOK e then
    Software.t s' = <[Z.to_nat i := u8 (Arduino.constrain (getTemperature e) 0 40)]> (Software.t s) /\
    Software.h s' = <[Z.to_nat i := u8 (Arduino.constrain (getHumidity e) 0 100)]> (Software.h s) /\
    Software.v s' = <[Z.to_nat i :=
        u16 (Float32.to_int (Float32.of_int (Arduino.constrain (analogRead e) 100 350)))]>
        (Software.v s) /\
    Software.index s' = i
  else
    Software.t s' = Software.t s /\ Software.h s' = Software.h s /\
    Software.v s' = Software.v s /\ Software.index s' = Software.index s.
Proof.
  unfold Software.loop, Software.process_button, Software.change_power, Software.readings.
  destruct (Software.auto_resume b e s), (pressed e), (Software.power s), (statusOK e);
    cbn; repeat split; reflexivity.
Qed.

Lemma Code_loop_buffers e s :
  let s' := fst (Code.loop e s) in
  let i := Z.rem (Code.index s + 1) 10 in
  if statusOK e then
    Code.t s' = <[Z.to_nat i := u8 (Arduino.constrain (getTemperature e) 0 40)]> (Code.t s) /\
    Code.h s' = <[Z.to_nat i := u8 (Arduino.constrain (getHumidity e) 0 100)]> (Code.h s) /\
    Code.v s' = <[Z.to_nat i :=
        u16 (Float32.to_int (Float32.of_int (Arduino.constrain (analogRead e) 0 350)))]>
        (Code.v s) /\
    Code.index s' = i
  else
    Code.t s' = Code.t s /\ Code.h s' = Code.h s /\
    Code.v s' = Code.v s /\ Code.index s' = Code.index s.
Proof.
  destruct s as [bt bh bv lr ix bu pw fa le].
  unfold Code.loop, Code.wait, Code.process_button, Code.change_power, Code.readings.
  destruct (pressed e), bu, pw, (statusOK e); cbn; repeat split; reflexivity.
Qed.

Lemma Code_loop_button e s : Code.button (fst (Code.loop e s)) = false.
Proof.
  destruct s as [bt bh bv lr ix bu pw fa le].
  unfold Code.loop, Code.wait, Code.process_button, Code.change_power, Code.readings.
  destruct (pressed e), bu, pw, (statusOK e); reflexivity.
Qed.

(** ** Reachable states are well formed *)

Lemma Software_setup_wf b e : Software_wf (Software.setup b e).
Proof.
  unfold Software_wf, Software.setup.
  cbn [Software.t Software.h Software.v Software.index].
  split; [|split; [|split]].
  - apply samples_replicate, stored_byte; lia.
  - apply samples_replicate, stored_byte; lia.
  - apply samples_replicate.
    pose proof (constrain_range (analogRead e) 0 350 ltac:(lia)).
    rewrite u16_small; lia.
  - lia.
Qed.

Lemma Software_loop_wf b e s : Software_wf s -> Software_wf (fst (Software.loop b e s)).
Proof.
  intros (Ht & Hh & Hv & Hi). unfold Software_wf.
  pose proof (Software_loop_buffers b e s) as H. cbn zeta in H.
  destruct (statusOK e); destruct H as (-> & -> & -> & ->).
  - split; [|split; [|split]].
    all: try (apply samples_insert; [assumption|]).
    + apply stored_byte; lia.
    + apply stored_byte; lia.
    + apply stored_volt; lia.
    + apply rem_index; lia.
  - split; [|split; [|split]]; assumption.
Qed.

Lemma Software_run_wf b es : forall s, Software_wf s -> Software_wf (Software.run b es s).
Proof.
  induction es as [|e es IH]; intros s Hs; [exact Hs|].
  cbn. apply IH. apply Software_loop_wf. exact Hs.
Qed.

Lemma Code_setup_wf e : Code_wf (Code.setup e).
Proof.
  unfold Code_wf, Code.setup.
  cbn [Code.t Code.h Code.v Code.index Code.button].
  split; [|split; [|split; [|split]]].
  - apply samples_replicate, stored_byte; lia.
  - apply samples_replicate, stored_byte; lia.
  - apply samples_replicate.
    pose proof (constrain_range (analogRead e) 0 350 ltac:(lia)).
    rewrite u16_small; lia.
  - lia.
  - reflexivity.
Qed.

Lemma Code_loop_wf e s : Code_wf s -> Code_wf (fst (Code.loop e s)).
Proof.
  intros (Ht & Hh & Hv & Hi & Hb). unfold Code_wf.
  pose proof (Code_loop_buffers e s) as H. cbn zeta in H.
  pose proof (Code_loop_button e s) as Hb'.
  destruct (statusOK e); destruct H as (-> & -> & -> & ->).
  - split; [|split; [|split; [|split]]]; try assumption.
    all: try (apply samples_insert; [assumption|]).
    + apply stored_byte; lia.
    + apply stored_byte; lia.
    + apply stored_volt; lia.
    + apply rem_index; lia.
  - split; [|split; [|split; [|split]]]; assumption.
Qed.

Lemma Code_run_wf es : forall s, Code_wf s -> Code_wf (Code.run es s).
Proof.
  induction es as [|e es IH]; intros s Hs; [exact Hs|].
  cbn. apply IH. apply Code_loop_wf. exact Hs.
Qed.

(** ** The fan decision *)

Lemma powerstates_eqb_eq p q : powerstates_eqb p q = true <-> p = q.
Proof. destruct p, q; cbn; split; congruence. Qed.

Lemma powerstates_eqb_neq p q : powerstates_eqb p q = false <-> p <> q.
Proof. destruct p, q; cbn; split; congruence. Qed.

(** The ramp on temperature in [unsigned int] arithmetic is the ramp of the
    specification as long as the average is one of [byte] samples. *)
Lemma fanT_no_wrap x :
  0 <= x <= 255 ->
  Software.fanT x
  = Spec.ramp Software.FAN_LOW Software.TEMP_TRIGGER Software.TEMP_RISE Software.FAN_HIGH x.
Proof.
  intros Hx. unfold Software.fanT, Spec.ramp, Software.TEMP_TRIGGER, Software.TEMP_RISE,
    Software.FAN_LOW, Software.FAN_HIGH.
  destruct (Z.leb_spec 28 x); [|reflexivity].
  rewrite min_is_Zmin. rewrite (u16_small (x - 28)) by lia.
  rewrite (u16_small ((x - 28) * 40)) by lia.
  rewrite u16_small by lia. reflexivity.
Qed.

Lemma fanH_no_wrap x :
  0 <= x <= 255 ->
  Software.fanH x
  = Spec.ramp Software.FAN_LOW Software.HUMI_TRIGGER Software.HUMI_RISE Software.FAN_HIGH x.
Proof.
  intros Hx. unfold Software.fanH, Spec.ramp, Software.HUMI_TRIGGER, Software.HUMI_RISE,
    Software.FAN_LOW, Software.FAN_HIGH.
  destruct (Z.leb_spec 70 x); [|reflexivity].
  rewrite min_is_Zmin. rewrite (u16_small (x - 70)) by lia.
  rewrite (u16_small ((x - 70) * 8)) by lia.
  rewrite u16_small by lia. reflexivity.
Qed.

(** Whatever the humidity average, [fanH] is a duty between 0 and
    FAN_HIGH. *)
Lemma fanH_range x : 0 <= Software.fanH x <= 255.
Proof.
  unfold Software.fanH, Software.FAN_HIGH.
  destruct (Software.HUMI_TRIGGER <=? x); [|lia].
  rewrite min_is_Zmin.
  pose proof (u16_range (Software.FAN_LOW
                + u16 (u16 (x - Software.HUMI_TRIGGER) * Software.HUMI_RISE))).
  lia.
Qed.

Lemma ramp_range base trigger slope top x :
  0 <= base -> 0 <= slope -> 0 <= top ->
  0 <= Spec.ramp base trigger slope top x <= top.
Proof.
  intros. unfold Spec.ramp. destruct (Z.leb_spec trigger x); [|lia].
  assert (0 <= (x - trigger) * slope) by (apply Z.mul_nonneg_nonneg; lia). lia.
Qed.

Lemma ramp_monotone base trigger slope top x y :
  0 <= base -> 0 <= slope -> 0 <= top -> x <= y ->
  Spec.ramp base trigger slope top x <= Spec.ramp base trigger slope top y.
Proof.
  intros Hb Hs Ht Hxy. unfold Spec.ramp.
  destruct (Z.leb_spec trigger x), (Z.leb_spec trigger y); try lia.
  - assert ((x - trigger) * slope <= (y - trigger) * slope)
      by (apply Z.mul_le_mono_nonneg_r; lia). lia.
  - assert (0 <= (y - trigger) * slope) by (apply Z.mul_nonneg_nonneg; lia). lia.
Qed.

(** The third rule of the policy in the 5-sample firmware: battery healthy
    and mode high. *)
Lemma Software_decide_high b tempAvg humiAvg voltAvg :
  Software.VIN_LOW b <= Software.VIN_GOOD b ->
  Software.VIN_GOOD b <= voltAvg ->
  0 <= tempAvg <= 255 -> 0 <= humiAvg <= 255 ->
  Software.decide_fan b tempAvg humiAvg voltAvg high
  = Z.max
      (Spec.ramp Software.FAN_LOW Software.TEMP_TRIGGER Software.TEMP_RISE
         Software.FAN_HIGH tempAvg)
      (Spec.ramp Software.FAN_LOW Software.HUMI_TRIGGER Software.HUMI_RISE
         Software.FAN_HIGH humiAvg).
Proof.
  intros Hlim Hv Ht Hh. unfold Software.decide_fan.
  destruct (Z.ltb_spec voltAvg (Software.VIN_LOW b)); [lia|].
  destruct (Z.ltb_spec voltAvg (Software.VIN_GOOD b)); [lia|].
  cbn [powerstates_eqb orb].
  rewrite fanT_no_wrap, fanH_no_wrap by assumption.
  rewrite max_is_Zmax.
  pose proof (ramp_range Software.FAN_LOW Software.TEMP_TRIGGER Software.TEMP_RISE
                Software.FAN_HIGH tempAvg) as H1.
  pose proof (ramp_range Software.FAN_LOW Software.HUMI_TRIGGER Software.HUMI_RISE
                Software.FAN_HIGH humiAvg) as H2.
  unfold Software.FAN_LOW, Software.FAN_HIGH, Software.TEMP_RISE, Software.HUMI_RISE in *.
  apply u8_small. lia.
Qed.

(** The second rule of the policy in the 5-sample firmware: battery marginal
    or mode low; the comparisons with the triggers are strict. *)
Lemma Software_decide_low b tempAvg humiAvg voltAvg power :
  Software.VIN_LOW b <= voltAvg -> power <> off ->
  voltAvg < Software.VIN_GOOD b \/ power = low ->
  Software.decide_fan b tempAvg humiAvg voltAvg power
  = if (Software.TEMP_TRIGGER <? tempAvg) || (Software.HUMI_TRIGGER <? humiAvg)
    then Software.FAN_LOW else 0.
Proof.
  intros Hv Hp Hlow. unfold Software.decide_fan.
  destruct (Z.ltb_spec voltAvg (Software.VIN_LOW b)); [lia|].
  apply powerstates_eqb_neq in Hp. rewrite Hp. cbn [orb].
  destruct (Z.ltb_spec voltAvg (Software.VIN_GOOD b)); [reflexivity|].
  destruct Hlow as [Hlow| ->]; [lia|]. reflexivity.
Qed.

(** Beyond the range of the averages the [unsigned int] product wraps and
    the ramp is lost. *)
Lemma Software_ramp_wraps :
  Software.decide_fan Software.production 32 0 240 high = 255 /\
  Software.decide_fan Software.production 1667 0 240 high = 119.
Proof. split; reflexivity. Qed.

(** The decision of the 10-sample firmware depends on the voltage average
    and on the mode alone. *)
Lemma Code_decide_ignores_averages tempAvg humiAvg tempAvg' humiAvg' voltAvg power :
  Code.decide_fan tempAvg humiAvg voltAvg power
  = Code.decide_fan tempAvg' humiAvg' voltAvg power.
Proof. reflexivity. Qed.

(** C1 (10-sample firmware). With a healthy battery and mode high the
    10-sample firmware sets the fan to FAN_HIGH whatever the averages are:
    after a pass over a buffer of 20 degrees, 50 percent and 240 units the
    fan runs at 255, where the maximum of the two ramps is 0 and where the
    5-sample firmware sets 0. *)
Theorem Code_high_branch_ignores_averages :
  let e := mkEnv false 0 0 0 20 50 240 true in
  let s := fst (Code.loop e (Code.setup e)) in
  Code.tempAvg s = 20 /\ Code.humiAvg s = 50 /\ Code.voltAvg s = 240 /\
  Code.power s = high /\
  Code.fan s = 255 /\
  Z.max (Spec.ramp Code.FAN_LOW Code.TEMP_MAX Software.TEMP_RISE Code.FAN_HIGH 20)
        (Spec.ramp Code.FAN_LOW Code.HUMI_MAX Software.HUMI_RISE Code.FAN_HIGH 50) = 0 /\
  Software.fan (fst (Software.loop Software.production e
                       (Software.setup Software.production e))) = 0.
Proof. vm_compute. repeat split; reflexivity. Qed.

(** C2 (10-sample firmware). With a marginal battery the 10-sample firmware
    sets the fan to FAN_LOW whatever the averages are: after a pass over a
    buffer of 20 degrees, 50 percent and 230 units (between the low and the
    good voltage) the fan runs at 96 although neither trigger is exceeded,
    where the 5-sample firmware sets 0. *)
Theorem Code_low_branch_ignores_averages :
  let e := mkEnv false 0 0 0 20 50 230 true in
  let s := fst (Code.loop e (Code.setup e)) in
  Code.tempAvg s = 20 /\ Code.humiAvg s = 50 /\ Code.voltAvg s = 230 /\
  Code.power s = high /\
  (Code.TEMP_MAX <? Code.tempAvg s) || (Code.HUMI_MAX <? Code.humiAvg s) = false /\
  Code.fan s = 96 /\
  Software.fan (fst (Software.loop Software.production e
                       (Software.setup Software.production e))) = 0.
Proof. vm_compute. repeat split; reflexivity. Qed.

(** C4. Whatever the averages, the fan is off when the voltage average is
    strictly below the low-voltage limit or the mode is off, in both
    firmwares. *)
Theorem fan_off_when_battery_low_or_mode_off
    (b : Software.build) (tempAvg humiAvg voltAvg : Z) (power : powerstates) :
  (voltAvg < Software.VIN_LOW b \/ power = off ->
   Software.decide_fan b tempAvg humiAvg voltAvg power = 0)
  /\
  (voltAvg < Code.VIN_LOW \/ power = off ->
   Code.decide_fan tempAvg humiAvg voltAvg power = 0).
Proof.
  split; intros H.
  - unfold Software.decide_fan.
    destruct H as [H| ->].
    + destruct (Z.ltb_spec voltAvg (Software.VIN_LOW b)); [reflexivity|lia].
    + cbn [powerstates_eqb]. rewrite orb_true_r. reflexivity.
  - unfold Code.decide_fan.
    destruct H as [H| ->].
    + destruct (Z.ltb_spec voltAvg Code.VIN_LOW); [reflexivity|lia].
    + cbn [powerstates_eqb]. rewrite orb_true_r. reflexivity.
Qed.

Lemma fan_off_when_battery_low_or_mode_off_witness :
  Software.decide_fan Software.production 35 0 200 high = 0 /\
  Code.decide_fan 35 0 240 off = 0.
Proof.
  split.
  - apply (proj1 (fan_off_when_battery_low_or_mode_off Software.production 35 0 200 high)).
    left. reflexivity.
  - apply (proj2 (fan_off_when_battery_low_or_mode_off Software.production 35 0 240 off)).
    right. reflexivity.
Defined.

(** C8. In the 5-sample firmware, with the humidity average fixed, mode
    high and a healthy battery, the fan value does not decrease when the
    temperature average (an average of [byte] samples) rises from the
    trigger upwards. *)
Theorem fan_monotone_in_temperature
    (b : Software.build) (tempAvg1 tempAvg2 humiAvg voltAvg : Z) :
  Software.VIN_GOOD b <= voltAvg ->
  Software.TEMP_TRIGGER <= tempAvg1 -> tempAvg1 <= tempAvg2 -> tempAvg2 <= 255 ->
  Software.decide_fan b tempAvg1 humiAvg voltAvg high
  <= Software.decide_fan b tempAvg2 humiAvg voltAvg high.
Proof.
  intros Hv H1 H12 H2. unfold Software.TEMP_TRIGGER in H1.
  unfold Software.decide_fan.
  destruct ((voltAvg <? Software.VIN_LOW b) || powerstates_eqb high off); [lia|].
  destruct (Z.ltb_spec voltAvg (Software.VIN_GOOD b)); [lia|].
  cbn [powerstates_eqb orb].
  rewrite !fanT_no_wrap by lia. rewrite !max_is_Zmax.
  pose proof (fanH_range humiAvg) as Hh.
  pose proof (ramp_range Software.FAN_LOW Software.TEMP_TRIGGER Software.TEMP_RISE
                Software.FAN_HIGH tempAvg1) as R1.
  pose proof (ramp_range Software.FAN_LOW Software.TEMP_TRIGGER Software.TEMP_RISE
                Software.FAN_HIGH tempAvg2) as R2.
  pose proof (ramp_monotone Software.FAN_LOW Software.TEMP_TRIGGER Software.TEMP_RISE
                Software.FAN_HIGH tempAvg1 tempAvg2) as M.
  unfold Software.FAN_LOW, Software.TEMP_RISE, Software.FAN_HIGH in *.
  rewrite !u8_small by lia. lia.
Qed.

Lemma fan_monotone_in_temperature_witness :
  Software.decide_fan Software.production 29 50 240 high
  <= Software.decide_fan Software.production 31 50 240 high.
Proof.
  apply (fan_monotone_in_temperature Software.production 29 31 50 240);
    unfold Software.TEMP_TRIGGER; simpl; lia.
Defined.

(** The scenarios of the specification for the decision. *)
Example decide_fan_scenarios :
  Spec.ramp 95 28 40 255 32 = 255 /\
  Software.decide_fan Software.production 32 0 240 high = 255 /\
  Software.decide_fan Software.production 29 0 240 low = Software.FAN_LOW /\
  Software.decide_fan Software.production 35 0 200 high = 0.
Proof. repeat split; reflexivity. Qed.

(** ** The trimmed average *)

(** The scenario of the specification: of 20, 22, 21, 23 and 100 the
    extremes 100 and 20 are dropped and the average is 22. *)
Example trimmed_average_scenario :
  Software.average (trim (scan 255 [20; 22; 21; 23; 100])) = 22 /\
  Spec.trimmed_average [20; 22; 21; 23; 100] = 22.
Proof. split; vm_compute; reflexivity. Qed.

(** Outside the range of the readings the voltage loop of the 5-sample
    firmware wraps: five samples of 65535 average to 21845. *)
Example voltage_total_wraps :
  Software.average (trim (scan 65534 [65535; 65535; 65535; 65535; 65535])) = 21845.
Proof. vm_compute. reflexivity. Qed.




(** In every state that the 5-sample firmware reaches, whatever the build
    and the readings, the three averages are the trimmed averages of the
    specification, and those of temperature and humidity fit a [byte]. *)
Lemma Software_reachable_averages b e0 es :
  let s := Software.run b es (Software.setup b e0) in
  Software.tempAvg s = Spec.trimmed_average (Software.t s) /\
  Software.humiAvg s = Spec.trimmed_average (Software.h s) /\
  Software.voltAvg s = Spec.trimmed_average (Software.v s) /\
  0 <= Software.tempAvg s <= 40 /\ 0 <= Software.humiAvg s <= 100.
Proof.
  intros s.
  destruct (Software_run_wf b es _ (Software_setup_wf b e0)) as (Ht & Hh & Hv & _).
  fold s in Ht, Hh, Hv.
  unfold Software.tempAvg, Software.humiAvg, Software.voltAvg.
  destruct (Software_average_exact 255 40 _ Ht) as [-> ?]; [lia|lia|].
  destruct (Software_average_exact 255 100 _ Hh) as [-> ?]; [lia|lia|].
  destruct (Software_average_exact 65534 350 _ Hv) as [-> ?]; [lia|lia|].
  repeat split; lia.
Qed.

(** ** The power mode *)

Lemma rotate_changes p : powerstates_eqb (Spec.rotate p) p = false.
Proof. destruct p; reflexivity. Qed.

Lemma powerstates_eqb_refl p : powerstates_eqb p p = true.
Proof. destruct p; reflexivity. Qed.

(** The handler of the 5-sample firmware runs on a press and on an
    auto-resume alike; it rotates the mode and stamps [lastButton]. *)
Lemma Software_loop_mode b e s :
  let s' := fst (Software.loop b e s) in
  if Software.auto_resume b e s || pressed e then
    Software.power s' = Spec.rotate (Software.power s) /\
    Software.lastButton s' = millis_button e
  else
    Software.power s' = Software.power s /\
    Software.lastButton s' = Software.lastButton s.
Proof.
  unfold Software.loop, Software.process_button, Software.change_power, Software.readings.
  destruct (Software.auto_resume b e s), (pressed e), (statusOK e);
    destruct s as [bt bh bv pw lr lb ix fa le]; destruct pw; cbn; split; reflexivity.
Qed.

(** The handler of the 10-sample firmware runs when [button] is set, by a
    press in the waiting loop or from before. *)
Lemma Code_loop_mode e s :
  Code.power (fst (Code.loop e s))
  = if pressed e || Code.button s then Spec.rotate (Code.power s) else Code.power s.
Proof.
  destruct s as [bt bh bv lr ix bu pw fa le].
  unfold Code.loop, Code.wait, Code.process_button, Code.change_power, Code.readings.
  destruct (pressed e), bu, pw, (statusOK e); reflexivity.
Qed.

(** C7. In both firmwares a pass of [loop()] in which the button was
    pressed moves the mode one step along Off -> Low -> High -> Off, and
    three such passes in a row bring the mode back to where it was. *)
Theorem three_presses_restore_mode
    (b : Software.build) (e1 e2 e3 : env) (s : Software.state) (c : Code.state) :
  pressed e1 = true -> pressed e2 = true -> pressed e3 = true ->
  (Software.power (fst (Software.loop b e1 s))
   = match Software.power s with off => low | low => high | high => off end
   /\ Software.power (Software.run b [e1; e2; e3] s) = Software.power s)
  /\
  (Code.power (fst (Code.loop e1 c))
   = match Code.power c with off => low | low => high | high => off end
   /\ Code.power (Code.run [e1; e2; e3] c) = Code.power c).
Proof.
  intros H1 H2 H3. split; split.
  - pose proof (Software_loop_mode b e1 s) as H. cbn zeta in H.
    rewrite H1, orb_true_r in H. apply H.
  - cbn [Software.run].
    pose proof (Software_loop_mode b e1 s) as P1. cbn zeta in P1.
    rewrite H1, orb_true_r in P1. destruct P1 as [P1 _].
    set (s1 := fst (Software.loop b e1 s)) in *.
    pose proof (Software_loop_mode b e2 s1) as P2. cbn zeta in P2.
    rewrite H2, orb_true_r in P2. destruct P2 as [P2 _].
    set (s2 := fst (Software.loop b e2 s1)) in *.
    pose proof (Software_loop_mode b e3 s2) as P3. cbn zeta in P3.
    rewrite H3, orb_true_r in P3. destruct P3 as [P3 _].
    rewrite P3, P2, P1. destruct (Software.power s); reflexivity.
  - rewrite Code_loop_mode, H1. reflexivity.
  - cbn [Code.run]. rewrite !Code_loop_mode, H1, H2, H3. cbn [orb].
    destruct (Code.power c); reflexivity.
Qed.

Lemma three_presses_restore_mode_witness :
  let e := mkEnv true 0 0 0 20 50 240 true in
  Software.power (Software.run Software.production [e; e; e]
                    (Software.setup Software.production e)) = high /\
  Code.power (Code.run [e; e; e] (Code.setup e)) = high.
Proof.
  intros e.
  destruct (three_presses_restore_mode Software.production e e e
              (Software.setup Software.production e) (Code.setup e)
              eq_refl eq_refl eq_refl) as [[_ Hs] [_ Hc]].
  split; [exact Hs|exact Hc].
Defined.

(** C10. In the 10-sample firmware, from any state that [setup()] and any
    number of passes lead to, a pass without a press leaves the mode as it
    is, and so does any sequence of such passes: nothing but a press moves
    the mode. *)
Theorem Code_mode_changes_only_on_press (e0 : env) (es : list env) :
  let s := Code.run es (Code.setup e0) in
  (forall e, pressed e = false -> Code.power (fst (Code.loop e s)) = Code.power s)
  /\
  (forall es', List.forallb (fun e => negb (pressed e)) es' = true ->
               Code.power (Code.run es' s) = Code.power s).
Proof.
  intros s.
  assert (Hwf : Code_wf s) by (apply Code_run_wf, Code_setup_wf).
  clearbody s. split.
  - intros e He. destruct Hwf as (_ & _ & _ & _ & Hb).
    rewrite Code_loop_mode, He, Hb. reflexivity.
  - intros es'. revert s Hwf.
    induction es' as [|e es' IH]; intros s Hwf Hall; [reflexivity|].
    cbn [List.forallb] in Hall. apply andb_prop in Hall. destruct Hall as [He Hall].
    apply negb_true_iff in He.
    cbn [Code.run]. rewrite IH by (try apply Code_loop_wf; assumption).
    destruct Hwf as (_ & _ & _ & _ & Hb).
    rewrite Code_loop_mode, He, Hb. reflexivity.
Qed.

Lemma Code_mode_changes_only_on_press_witness :
  let press := mkEnv true 0 0 0 20 50 240 true in
  let idle := mkEnv false 0 0 0 20 50 240 true in
  Code.power (Code.run [idle; idle; idle] (Code.run [press] (Code.setup idle))) = off.
Proof.
  intros press idle.
  rewrite (proj2 (Code_mode_changes_only_on_press idle [press]) [idle; idle; idle] eq_refl).
  reflexivity.
Defined.

(** Before the timeout has elapsed the auto-resume test fails, also when
    [millis()] has wrapped around in between. *)
Lemma auto_resume_not_before_timeout b e s elapsed :
  0 <= elapsed <= Software.RESUMETIME b -> Software.RESUMETIME b < 4294967296 ->
  millis_resume e = u32 (Software.lastButton s + elapsed) ->
  Software.auto_resume b e s = false.
Proof.
  intros Hd Hr He. unfold Software.auto_resume. rewrite He. unfold u32.
  rewrite Zminus_mod_idemp_l.
  replace (Software.lastButton s + elapsed - Software.lastButton s) with elapsed by lia.
  rewrite Z.mod_small by lia.
  destruct (Z.ltb_spec (Software.RESUMETIME b) elapsed); [lia|].
  apply andb_false_r.
Qed.

(** [lastButton] holds the time of the most recent change of mode. *)
Lemma Software_lastButton_run b es : forall s,
  Software.lastButton (Software.run b es s)
  = Software.last_change b es s (Software.lastButton s).
Proof.
  induction es as [|e es IH]; intros s; [reflexivity|].
  cbn [Software.run Software.last_change]. rewrite IH. f_equal.
  pose proof (Software_loop_mode b e s) as H. cbn zeta in H.
  destruct (Software.auto_resume b e s || pressed e); destruct H as [-> ->].
  - rewrite rotate_changes. reflexivity.
  - rewrite powerstates_eqb_refl. reflexivity.
Qed.

(** C5. In every state that the 5-sample firmware reaches, a pass without a
    press changes the mode (an auto-resume) only if the mode is not high
    and the time since the last change of mode, as [millis()] measures it,
    exceeds RESUMETIME. *)
Theorem auto_resume_only_after_timeout
    (b : Software.build) (e0 : env) (es : list env) (e : env) :
  let s := Software.run b es (Software.setup b e0) in
  pressed e = false ->
  powerstates_eqb (Software.power (fst (Software.loop b e s))) (Software.power s) = false ->
  Software.power s <> high /\
  Software.RESUMETIME b
  < u32 (millis_resume e - Software.last_change b es (Software.setup b e0) 0).
Proof.
  intros s Hp Hchg.
  pose proof (Software_loop_mode b e s) as H. cbn zeta in H.
  rewrite Hp, orb_false_r in H.
  destruct (Software.auto_resume b e s) eqn:Hauto.
  - unfold Software.auto_resume in Hauto. apply andb_prop in Hauto.
    destruct Hauto as [Hmode Htime].
    apply negb_true_iff, powerstates_eqb_neq in Hmode.
    apply Z.ltb_lt in Htime. unfold s in Htime.
    rewrite Software_lastButton_run in Htime.
    split; [exact Hmode|exact Htime].
  - destruct H as [H _]. rewrite H, powerstates_eqb_refl in Hchg. discriminate.
Qed.

Lemma auto_resume_only_after_timeout_witness :
  let press := mkEnv true 1000 1500 2000 20 50 240 true in
  let idle := mkEnv false 10801501 10802000 10803000 20 50 240 true in
  off <> high /\ 10800000 < u32 (10801501 - 1500).
Proof.
  intros press idle.
  exact (auto_resume_only_after_timeout Software.production idle [press] idle
           eq_refl eq_refl).
Defined.

(** ** The time stamp of the last change of mode *)

(** C6 as stated fails on the 5-sample firmware, the only one that has an
    auto-resume and a time stamp: a press at 1.5 s turns the fan off, and
    the pass made three hours later, without a press, resumes to low and
    moves [lastButton] from 1500 to 10802000.  On the same inputs the
    10-sample firmware stays off: it has no auto-resume to speak of. *)
Lemma auto_resume_restamps_lastButton :
  let press := mkEnv true 1000 1500 2000 20 50 240 true in
  let idle := mkEnv false 10801501 10802000 10803000 20 50 240 true in
  let s := Software.run Software.production [press]
             (Software.setup Software.production idle) in
  let s' := fst (Software.loop Software.production idle s) in
  pressed idle = false /\
  Software.power s = off /\ Software.lastButton s = 1500 /\
  Software.power s' = low /\ Software.lastButton s' = 10802000 /\
  Software.lastButton s' <> Software.lastButton s /\
  Code.power (Code.run [press] (Code.setup idle)) = off /\
  Code.power (fst (Code.loop idle (Code.run [press] (Code.setup idle)))) = off.
Proof. vm_compute. repeat split; try reflexivity. discriminate. Qed.

(** C6, amended. In the 5-sample firmware every pass that changes the mode,
    on a press of the button or on an auto-resume, sets [lastButton] to the
    current [millis()], and a pass that does neither leaves mode and
    [lastButton] alone; the assignment to [lastButton] changes no other
    global. *)
Theorem lastButton_stamped_on_every_change
    (b : Software.build) (e : env) (s : Software.state) :
  let s' := fst (Software.loop b e s) in
  (pressed e = true \/ Software.auto_resume b e s = true ->
   Software.power s' <> Software.power s /\ Software.lastButton s' = millis_button e)
  /\
  (pressed e = false /\ Software.auto_resume b e s = false ->
   Software.power s' = Software.power s /\ Software.lastButton s' = Software.lastButton s)
  /\
  (forall x,
     let s1 := Software.set_lastButton x s in
     Software.lastButton s1 = x /\
     Software.t s1 = Software.t s /\ Software.h s1 = Software.h s /\
     Software.v s1 = Software.v s /\ Software.power s1 = Software.power s /\
     Software.lastRead s1 = Software.lastRead s /\ Software.index s1 = Software.index s /\
     Software.fan s1 = Software.fan s /\ Software.led s1 = Software.led s).
Proof.
  intros s'. pose proof (Software_loop_mode b e s) as H. cbn zeta in H. fold s' in H.
  split; [|split].
  - intros Hor.
    assert (Hb : Software.auto_resume b e s || pressed e = true).
    { destruct Hor as [-> | ->]; [apply orb_true_r|reflexivity]. }
    rewrite Hb in H. destruct H as [Hp Hl]. split; [|exact Hl].
    rewrite Hp. apply powerstates_eqb_neq, rotate_changes.
  - intros [Hp Ha]. rewrite Hp, Ha in H. exact H.
  - intros x. cbn. repeat split; reflexivity.
Qed.

Lemma lastButton_stamped_on_every_change_witness :
  let press := mkEnv true 1000 1500 2000 20 50 240 true in
  let s := Software.setup Software.production press in
  Software.power (fst (Software.loop Software.production press s)) <> Software.power s /\
  Software.lastButton (fst (Software.loop Software.production press s)) = 1500.
Proof.
  intros press s.
  apply (proj1 (lastButton_stamped_on_every_change Software.production press s)).
  left. reflexivity.
Defined.

(** ** Readings that the driver reports as bad *)

(** C9. In both firmwares a pass whose reading the DHT11 driver reports as
    bad leaves the three buffers and the write index as they were, flashes
    the fault indication, and goes on to the end: the fan is set from the
    averages of the samples retained. *)
Theorem bad_reading_keeps_buffers
    (b : Software.build) (e : env) (s : Software.state) (c : Code.state) :
  statusOK e = false ->
  (let s' := fst (Software.loop b e s) in
   Software.t s' = Software.t s /\ Software.h s' = Software.h s /\
   Software.v s' = Software.v s /\ Software.index s' = Software.index s /\
   Software.fan s'
   = Software.decide_fan b (Software.tempAvg s) (Software.humiAvg s) (Software.voltAvg s)
       (Software.power s') /\
   exists out,
     snd (Software.loop b e s)
     = out ++ [flashFast 10 (Arduino.max (Software.led s') Software.LED_LOW);
               ledWrite (Software.led s'); fanWrite (Software.fan s')])
  /\
  (let c' := fst (Code.loop e c) in
   Code.t c' = Code.t c /\ Code.h c' = Code.h c /\
   Code.v c' = Code.v c /\ Code.index c' = Code.index c /\
   Code.fan c'
   = Code.decide_fan (Code.tempAvg c) (Code.humiAvg c) (Code.voltAvg c) (Code.power c') /\
   exists out,
     snd (Code.loop e c)
     = out ++ [flashFast 3 (Code.led c'); ledWrite (Code.led c'); fanWrite (Code.fan c')]).
Proof.
  intros Hbad. split.
  - destruct s as [bt bh bv pw lr lb ix fa le].
    unfold Software.loop, Software.process_button, Software.change_power, Software.readings.
    rewrite Hbad.
    destruct (Software.auto_resume b e _), (pressed e), pw; cbn;
      repeat split; try reflexivity; eexists;
      try (rewrite app_nil_l; reflexivity);
      (change (?x :: ?l) with ([x] ++ l) at 1; reflexivity).
  - destruct c as [bt bh bv lr ix bu pw fa le].
    unfold Code.loop, Code.wait, Code.process_button, Code.change_power, Code.readings.
    rewrite Hbad.
    destruct (pressed e), bu, pw; cbn;
      repeat split; try reflexivity; eexists;
      try (rewrite app_nil_l; reflexivity);
      (change (?x :: ?l) with ([x] ++ l) at 1; reflexivity).
Qed.

Lemma bad_reading_keeps_buffers_witness :
  let good := mkEnv false 0 0 0 20 50 240 true in
  let bad := mkEnv false 0 0 0 0 0 240 false in
  Software.t (fst (Software.loop Software.production bad
                     (Software.setup Software.production good)))
  = [20; 20; 20; 20; 20] /\
  Code.index (fst (Code.loop bad (Code.setup good))) = 0.
Proof.
  intros good bad.
  destruct (bad_reading_keeps_buffers Software.production bad
              (Software.setup Software.production good) (Code.setup good) eq_refl)
    as [(Ht & _) (_ & _ & _ & Hi & _)].
  split; [exact Ht|exact Hi].
Defined.

(** * What else the sketches do *)

(** ** The averages do not depend on the order of the samples *)

Lemma sum_Permutation l l' : l ≡ₚ l' -> Spec.sum l = Spec.sum l'.
Proof. induction 1; cbn [Spec.sum]; lia. Qed.

Lemma maximum_Permutation l l' : l ≡ₚ l' -> Spec.maximum l = Spec.maximum l'.
Proof.
  induction 1 as [|x l l' Hp IH|x y l|l l' l'' _ IH1 _ IH2].
  - reflexivity.
  - destruct l as [|a l]; [apply Permutation_nil_l in Hp; subst; reflexivity|].
    destruct l' as [|a' l'];
      [apply Permutation_nil_r in Hp; discriminate|].
    rewrite !maximum_cons, IH. reflexivity.
  - destruct l as [|a l]; [cbn; lia|]. rewrite !maximum_cons. lia.
  - congruence.
Qed.

Lemma minimum_Permutation l l' : l ≡ₚ l' -> Spec.minimum l = Spec.minimum l'.
Proof.
  induction 1 as [|x l l' Hp IH|x y l|l l' l'' _ IH1 _ IH2].
  - reflexivity.
  - destruct l as [|a l]; [apply Permutation_nil_l in Hp; subst; reflexivity|].
    destruct l' as [|a' l'];
      [apply Permutation_nil_r in Hp; discriminate|].
    rewrite !minimum_cons, IH. reflexivity.
  - destruct l as [|a l]; [cbn; lia|]. rewrite !minimum_cons. lia.
  - congruence.
Qed.

Lemma trimmed_total_Permutation l l' :
  l ≡ₚ l' -> Spec.trimmed_total l = Spec.trimmed_total l'.
Proof.
  intros Hp. unfold Spec.trimmed_total.
  rewrite (sum_Permutation _ _ Hp), (maximum_Permutation _ _ Hp),
    (minimum_Permutation _ _ Hp). reflexivity.
Qed.

Lemma samples_Permutation n top l l' : l ≡ₚ l' -> samples n top l -> samples n top l'.
Proof.
  intros Hp [Hlen Hall]. split.
  - rewrite <- Hlen. symmetry. apply Permutation_length. exact Hp.
  - rewrite <- Hp. exact Hall.
Qed.

(** The trimmed total that the averaging loop leaves, for a buffer of two
    samples or more within range. *)
Lemma trim_scan_total n min0 top l :
  samples (S (S n)) top l -> top <= min0 -> Z.of_nat (S (S n)) * top < 65536 ->
  trim (scan min0 l) = Spec.trimmed_total l.
Proof.
  intros Hs Hmin Hlen.
  destruct (samples_cons2 _ _ _ Hs) as (x & y & l' & -> & Hlen').
  destruct Hs as [Hl Hall].
  apply (trim_scan min0 top); [exact Hall|exact Hmin|].
  rewrite Hl. exact Hlen.
Qed.

(** Whichever slot of the ring the next reading goes to, and in whatever
    order the samples lie in the buffer, the averages of both firmwares
    are the same. *)
Theorem averages_independent_of_order (min0 top : Z) (l l' : list Z) :
  l ≡ₚ l' -> top <= min0 -> top <= 350 ->
  (samples 5 top l ->
   Software.average (trim (scan min0 l)) = Software.average (trim (scan min0 l')))
  /\
  (samples 10 top l ->
   Code.average (trim (scan min0 l)) = Code.average (trim (scan min0 l'))).
Proof.
  intros Hp Hmin Htop. split; intros Hs.
  - rewrite !(trim_scan_total 3 min0 top);
      [|eapply samples_Permutation; eassumption|lia|lia|exact Hs|lia|lia].
    rewrite (trimmed_total_Permutation _ _ Hp). reflexivity.
  - rewrite !(trim_scan_total 8 min0 top);
      [|eapply samples_Permutation; eassumption|lia|lia|exact Hs|lia|lia].
    rewrite (trimmed_total_Permutation _ _ Hp). reflexivity.
Qed.

Lemma averages_independent_of_order_witness :
  Software.average (trim (scan 255 [20; 22; 21; 23; 40]))
  = Software.average (trim (scan 255 [22; 20; 21; 23; 40])).
Proof.
  apply (proj1 (averages_independent_of_order 255 40
                  [20; 22; 21; 23; 40] [22; 20; 21; 23; 40]
                  (perm_swap 22 20 _) ltac:(lia) ltac:(lia))).
  split; [reflexivity|]. repeat constructor; lia.
Defined.

(** ** One stray sample does not move the average *)

(** Bounds of the extremes and of the totals of a non-empty buffer whose
    samples lie between [lo] and [hi]. *)
Lemma range_bounds lo hi l x :
  Forall (fun x => lo <= x <= hi) (x :: l) ->
  lo <= Spec.minimum (x :: l) /\
  Spec.minimum (x :: l) <= Spec.maximum (x :: l) /\
  Spec.maximum (x :: l) <= hi /\
  Z.of_nat (length l) * lo <= Spec.sum (x :: l) - Spec.maximum (x :: l)
    <= Z.of_nat (length l) * hi /\
  Z.of_nat (length l) * lo <= Spec.sum (x :: l) - Spec.minimum (x :: l)
    <= Z.of_nat (length l) * hi.
Proof.
  revert x. induction l as [|y l IH]; intros x Hall.
  - apply Forall_inv in Hall. cbn. lia.
  - pose proof (Forall_inv Hall) as Hx. cbn beta in Hx.
    apply Forall_inv_tail in Hall. specialize (IH y Hall).
    rewrite maximum_cons, minimum_cons.
    change (Spec.sum (x :: y :: l)) with (x + Spec.sum (y :: l)).
    change (length (y :: l)) with (S (length l)). rewrite Nat2Z.inj_succ. lia.
Qed.

Lemma trimmed_range lo hi l x y :
  Forall (fun x => lo <= x <= hi) (x :: y :: l) ->
  Z.of_nat (length l) * lo <= Spec.trimmed_total (x :: y :: l)
    <= Z.of_nat (length l) * hi.
Proof.
  unfold Spec.trimmed_total.
  revert x y. induction l as [|z l IH]; intros x y Hall.
  - pose proof (Forall_inv Hall) as Hx. cbn beta in Hx.
    pose proof (Forall_inv (Forall_inv_tail Hall)) as Hy. cbn beta in Hy.
    cbn. lia.
  - pose proof (Forall_inv Hall) as Hx. cbn beta in Hx.
    apply Forall_inv_tail in Hall.
    pose proof (range_bounds _ _ _ _ Hall) as Hr.
    specialize (IH y z Hall).
    rewrite (maximum_cons x), (minimum_cons x).
    change (Spec.sum (x :: y :: z :: l)) with (x + Spec.sum (y :: z :: l)).
    change (length (z :: l)) with (S (length l)). rewrite Nat2Z.inj_succ. lia.
Qed.

(** The trimmed total of a buffer all of whose samples but one lie between
    [lo] and [hi]: the stray one, wherever it is and whatever it is, is the
    maximum or the minimum that is taken off, or lies in between itself. *)
Lemma trimmed_total_but_one lo hi l i :
  (3 <= length l)%nat ->
  Forall (fun x => lo <= x <= hi) (delete i l) ->
  (Z.of_nat (length l) - 2) * lo <= Spec.trimmed_total l
    <= (Z.of_nat (length l) - 2) * hi.
Proof.
  intros Hlen Hall.
  destruct (l !! i) as [w|] eqn:Hi.
  - pose proof (delete_Permutation _ _ _ Hi) as Hp.
    rewrite (trimmed_total_Permutation _ _ Hp).
    apply Permutation_length in Hp. cbn [length] in Hp.
    destruct (delete i l) as [|x [|y l']]; cbn [length] in Hp; try lia.
    pose proof (range_bounds _ _ _ _ Hall) as Hr.
    pose proof (trimmed_range _ _ _ _ _ Hall) as Ht.
    unfold Spec.trimmed_total in *.
    rewrite (maximum_cons w), (minimum_cons w).
    change (Spec.sum (w :: x :: y :: l')) with (w + Spec.sum (x :: y :: l')).
    change (length (y :: l')) with (S (length l')) in Hr.
    rewrite Nat2Z.inj_succ in Hr. rewrite Hp, !Nat2Z.inj_succ. lia.
  - assert (Hdel : forall (k : list Z) j, k !! j = None -> delete j k = k).
    { induction k as [|a k IHk]; intros [|j] Hj; try reflexivity; try discriminate.
      cbn. f_equal. apply IHk. exact Hj. }
    rewrite (Hdel _ _ Hi) in Hall.
    destruct l as [|x [|y l']]; cbn [length] in Hlen; try lia.
    pose proof (trimmed_range _ _ _ _ _ Hall) as Ht.
    cbn [length]. rewrite !Nat2Z.inj_succ. lia.
Qed.

(** In both firmwares the average of a channel lies within the range of
    all its samples but one, whichever one is left out: a single misread
    sample, high or low, cannot carry the average outside what the other
    samples say. *)
Theorem average_rejects_one_outlier (min0 top lo hi : Z) (l : list Z) (i : nat) :
  top <= min0 -> top <= 350 ->
  Forall (fun x => lo <= x <= hi) (delete i l) ->
  (samples 5 top l -> lo <= Software.average (trim (scan min0 l)) <= hi)
  /\
  (samples 10 top l -> lo <= Code.average (trim (scan min0 l)) <= hi).
Proof.
  intros Hmin Htop Hin. split; intros Hs.
  - destruct (Software_average_exact min0 top l Hs Hmin Htop) as [_ Hrange].
    pose proof (trim_scan_total 3 min0 top l Hs Hmin ltac:(lia)) as Ht.
    destruct Hs as [Hlen Hall].
    pose proof (trimmed_total_but_one lo hi l i ltac:(lia) Hin) as Hb.
    rewrite Hlen in Hb. rewrite Ht in *.
    pose proof (sum_bounds _ _ Hall) as Hsum. rewrite Hlen in Hsum.
    assert (0 <= Spec.trimmed_total l < 2048).
    { destruct (samples_cons2 3 top l (conj Hlen Hall)) as (x & y & l' & -> & Hl').
      pose proof (trimmed_bounds _ _ _ _ Hall). pose proof (extremes_bounds _ _ _ Hall).
      unfold Spec.trimmed_total. lia. }
    rewrite round_third by lia.
    split.
    + apply Z.div_le_lower_bound; lia.
    + apply Z.lt_succ_r. apply Z.div_lt_upper_bound; lia.
  - destruct (Code_average_exact min0 top l Hs Hmin Htop) as [-> Hpos].
    destruct Hs as [Hlen Hall].
    pose proof (trimmed_total_but_one lo hi l i ltac:(lia) Hin) as Hb.
    rewrite Hlen in Hb.
    split.
    + apply Z.div_le_lower_bound; lia.
    + apply Z.lt_succ_r. apply Z.div_lt_upper_bound; lia.
Qed.

Lemma average_rejects_one_outlier_witness :
  238 <= Software.average (trim (scan 65534 [240; 239; 100; 238; 240])) <= 240.
Proof.
  apply (proj1 (average_rejects_one_outlier 65534 350 238 240
                  [240; 239; 100; 238; 240] 2 ltac:(lia) ltac:(lia)
                  ltac:(cbn; repeat constructor; lia))).
  split; [reflexivity|]. repeat constructor; lia.
Defined.

(** ** The ring buffers *)













(** ** More on the fan decision *)

(** The decision of the 5-sample firmware on averages of [byte] samples,
    with the ramps of the specification in place of the [unsigned int]
    arithmetic. *)
Lemma Software_decide_bytes b tempAvg humiAvg voltAvg power :
  0 <= tempAvg <= 255 -> 0 <= humiAvg <= 255 ->
  Software.decide_fan b tempAvg humiAvg voltAvg power
  = if (voltAvg <? Software.VIN_LOW b) || powerstates_eqb power off then 0
    else if (voltAvg <? Software.VIN_GOOD b) || powerstates_eqb power low then
      if (28 <? tempAvg) || (70 <? humiAvg) then 95 else 0
    else Z.max (Spec.ramp 95 28 40 255 tempAvg) (Spec.ramp 95 70 8 255 humiAvg).
Proof.
  intros Ht Hh. unfold Software.decide_fan.
  destruct ((voltAvg <? Software.VIN_LOW b) || powerstates_eqb power off); [reflexivity|].
  destruct ((voltAvg <? Software.VIN_GOOD b) || powerstates_eqb power low); [reflexivity|].
  rewrite fanT_no_wrap, fanH_no_wrap, max_is_Zmax by assumption.
  pose proof (ramp_range 95 28 40 255 tempAvg ltac:(lia) ltac:(lia) ltac:(lia)).
  pose proof (ramp_range 95 70 8 255 humiAvg ltac:(lia) ltac:(lia) ltac:(lia)).
  apply u8_small.
  change Software.FAN_LOW with 95. change Software.FAN_HIGH with 255.
  change Software.TEMP_TRIGGER with 28. change Software.HUMI_TRIGGER with 70.
  change Software.TEMP_RISE with 40. change Software.HUMI_RISE with 8. lia.
Qed.

Lemma Software_loop_fan b e s :
  let s' := fst (Software.loop b e s) in
  Software.fan s'
  = Software.decide_fan b (Software.tempAvg s') (Software.humiAvg s')
      (Software.voltAvg s') (Software.power s').
Proof.
  unfold Software.loop, Software.process_button, Software.change_power, Software.readings.
  destruct (Software.auto_resume b e s), (pressed e), (statusOK e);
    destruct s as [bt bh bv pw lr lb ix fa le]; destruct pw; reflexivity.
Qed.

Lemma Code_loop_fan e s :
  let s' := fst (Code.loop e s) in
  Code.fan s'
  = Code.decide_fan (Code.tempAvg s') (Code.humiAvg s') (Code.voltAvg s') (Code.power s').
Proof.
  destruct s as [bt bh bv lr ix bu pw fa le].
  unfold Code.loop, Code.wait, Code.process_button, Code.change_power, Code.readings.
  destruct (pressed e), bu, pw, (statusOK e); reflexivity.
Qed.

Lemma Software_run_snoc b es e s :
  Software.run b (es ++ [e]) s = fst (Software.loop b e (Software.run b es s)).
Proof. revert s. induction es as [|e' es IH]; intros s; [reflexivity|]. cbn. apply IH. Qed.

Lemma Code_run_snoc es e s :
  Code.run (es ++ [e]) s = fst (Code.loop e (Code.run es s)).
Proof. revert s. induction es as [|e' es IH]; intros s; [reflexivity|]. cbn. apply IH. Qed.

Lemma Software_wf_averages s :
  Software_wf s ->
  0 <= Software.tempAvg s <= 40 /\ 0 <= Software.humiAvg s <= 100 /\
  0 <= Software.voltAvg s <= 350.
Proof.
  intros (Ht & Hh & Hv & _). unfold Software.tempAvg, Software.humiAvg, Software.voltAvg.
  split; [|split].
  - apply (Software_average_exact 255 40); [exact Ht|lia|lia].
  - apply (Software_average_exact 255 100); [exact Hh|lia|lia].
  - apply (Software_average_exact 65534 350); [exact Hv|lia|lia].
Qed.

(** In every state that the 5-sample firmware reaches the fan is off or
    runs at FAN_LOW at least and FAN_HIGH at most: never at a duty below
    the base speed.  The 10-sample firmware knows three duties. *)
Theorem fan_off_or_above_base (b : Software.build) (e0 : env) (es : list env) :
  let s := Software.run b es (Software.setup b e0) in
  let c := Code.run es (Code.setup e0) in
  (Software.fan s = 0 \/ Software.FAN_LOW <= Software.fan s <= Software.FAN_HIGH)
  /\
  (Code.fan c = 0 \/ Code.fan c = Code.FAN_LOW \/ Code.fan c = Code.FAN_HIGH).
Proof.
  intros s c. split.
  - subst s. destruct es as [|e es] using rev_ind; [left; reflexivity|].
    rewrite Software_run_snoc.
    set (s0 := Software.run b es (Software.setup b e0)).
    assert (Hwf : Software_wf (fst (Software.loop b e s0)))
      by (apply Software_loop_wf, Software_run_wf, Software_setup_wf).
    destruct (Software_wf_averages _ Hwf) as (Ht & Hh & _).
    rewrite Software_loop_fan, Software_decide_bytes by lia.
    change Software.FAN_LOW with 95. change Software.FAN_HIGH with 255.
    unfold Spec.ramp.
    destruct (_ || _); [left; reflexivity|].
    destruct (_ || _); [destruct (_ || _); [right|left]; lia|].
    destruct (Z.leb_spec 28 (Software.tempAvg (fst (Software.loop b e s0)))),
      (Z.leb_spec 70 (Software.humiAvg (fst (Software.loop b e s0)))); lia.
  - subst c. destruct es as [|e es] using rev_ind; [left; reflexivity|].
    rewrite Code_run_snoc, Code_loop_fan. unfold Code.decide_fan.
    destruct (_ || _); [left; reflexivity|].
    destruct (_ || _); [right; left|right; right]; reflexivity.
Qed.

(** With a healthy battery and mode high, the fan of the 5-sample firmware
    is off exactly when both averages are below their triggers, and at full
    speed exactly from 4 degrees above the temperature trigger or 20
    percent above the humidity trigger. *)
Theorem fan_ramp_ends
    (b : Software.build) (tempAvg humiAvg voltAvg : Z) :
  Software.VIN_LOW b <= Software.VIN_GOOD b -> Software.VIN_GOOD b <= voltAvg ->
  0 <= tempAvg <= 255 -> 0 <= humiAvg <= 255 ->
  let fan := Software.decide_fan b tempAvg humiAvg voltAvg high in
  (fan = 0 <-> tempAvg < Software.TEMP_TRIGGER /\ humiAvg < Software.HUMI_TRIGGER) /\
  (fan = Software.FAN_HIGH
   <-> Software.TEMP_TRIGGER + 4 <= tempAvg \/ Software.HUMI_TRIGGER + 20 <= humiAvg).
Proof.
  intros Hlim Hv Ht Hh fan. subst fan.
  rewrite Software_decide_bytes by assumption.
  destruct (Z.ltb_spec voltAvg (Software.VIN_LOW b)); [lia|].
  destruct (Z.ltb_spec voltAvg (Software.VIN_GOOD b)); [lia|].
  cbn [powerstates_eqb orb]. unfold Spec.ramp.
  change Software.FAN_HIGH with 255.
  change Software.TEMP_TRIGGER with 28. change Software.HUMI_TRIGGER with 70.
  destruct (Z.leb_spec 28 tempAvg), (Z.leb_spec 70 humiAvg); lia.
Qed.

Lemma fan_ramp_ends_witness :
  Software.decide_fan Software.production 32 0 240 high = Software.FAN_HIGH.
Proof.
  apply (proj2 (fan_ramp_ends Software.production 32 0 240
                  ltac:(simpl; lia) ltac:(simpl; lia) ltac:(lia) ltac:(lia))).
  left. unfold Software.TEMP_TRIGGER. lia.
Defined.

(** The decision of the 5-sample firmware is monotone in everything it
    looks at: a higher temperature, a higher humidity, a higher voltage or
    a higher mode (Off < Low < High) never lowers the fan. *)
Theorem fan_monotone_in_all_inputs
    (b : Software.build) (t1 t2 h1 h2 v1 v2 : Z) (p1 p2 : powerstates) :
  Software.VIN_LOW b <= Software.VIN_GOOD b ->
  0 <= t1 -> t1 <= t2 -> t2 <= 255 ->
  0 <= h1 -> h1 <= h2 -> h2 <= 255 ->
  v1 <= v2 -> power_rank p1 <= power_rank p2 ->
  Software.decide_fan b t1 h1 v1 p1 <= Software.decide_fan b t2 h2 v2 p2.
Proof.
  intros Hlim Ht1 Ht12 Ht2 Hh1 Hh12 Hh2 Hv Hp.
  rewrite !Software_decide_bytes by lia. unfold Spec.ramp.
  destruct (Z.ltb_spec v1 (Software.VIN_LOW b)), (Z.ltb_spec v2 (Software.VIN_LOW b)),
    (Z.ltb_spec v1 (Software.VIN_GOOD b)), (Z.ltb_spec v2 (Software.VIN_GOOD b));
    try lia;
    destruct p1, p2; cbn in Hp; try lia; cbn [powerstates_eqb orb];
    destruct (Z.ltb_spec 28 t1), (Z.ltb_spec 28 t2),
      (Z.ltb_spec 70 h1), (Z.ltb_spec 70 h2); cbn [orb]; try lia;
    destruct (Z.leb_spec 28 t1), (Z.leb_spec 28 t2),
      (Z.leb_spec 70 h1), (Z.leb_spec 70 h2); lia.
Qed.

Lemma fan_monotone_in_all_inputs_witness :
  Software.decide_fan Software.production 29 60 230 low
  <= Software.decide_fan Software.production 30 75 240 high.
Proof.
  apply (fan_monotone_in_all_inputs Software.production 29 30 60 75 230 240 low high);
    simpl; lia.
Defined.

(** ** More on the power mode *)

Lemma Software_loop_led b e s :
  let s' := fst (Software.loop b e s) in
  Software.led s'
  = if Software.auto_resume b e s || pressed e
    then Software_led_of (Software.power s') else Software.led s.
Proof.
  unfold Software.loop, Software.process_button, Software.change_power, Software.readings.
  destruct (Software.auto_resume b e s), (pressed e), (statusOK e);
    destruct s as [bt bh bv pw lr lb ix fa le]; destruct pw; reflexivity.
Qed.

Lemma Code_loop_led e s :
  let s' := fst (Code.loop e s) in
  Code.led s'
  = if pressed e || Code.button s then Code_led_of (Code.power s') else Code.led s.
Proof.
  destruct s as [bt bh bv lr ix bu pw fa le].
  unfold Code.loop, Code.wait, Code.process_button, Code.change_power, Code.readings.
  destruct (pressed e), bu, pw, (statusOK e); reflexivity.
Qed.

Lemma led_follows_mode_aux (b : Software.build) (e0 : env) (es : list env) :
  let s := Software.run b es (Software.setup b e0) in
  let c := Code.run es (Code.setup e0) in
  Software.led s = Software_led_of (Software.power s) /\
  Code.led c = Code_led_of (Code.power c).
Proof.
  intros s c. split.
  - subst s. induction es as [|e es IH] using rev_ind; [reflexivity|].
    rewrite Software_run_snoc.
    set (s0 := Software.run b es (Software.setup b e0)) in *.
    pose proof (Software_loop_mode b e s0) as Hm. cbn zeta in Hm.
    rewrite Software_loop_led.
    destruct (Software.auto_resume b e s0 || pressed e); [reflexivity|].
    destruct Hm as [-> _]. exact IH.
  - subst c. induction es as [|e es IH] using rev_ind; [reflexivity|].
    rewrite Code_run_snoc.
    set (c0 := Code.run es (Code.setup e0)) in *.
    rewrite Code_loop_led. pose proof (Code_loop_mode e c0) as Hm.
    destruct (pressed e || Code.button c0); [reflexivity|].
    rewrite Hm. exact IH.
Qed.

(** In every reachable state of either firmware the LED level is the one of
    the mode: bright in High, dim in Low, dark in Off. *)
Theorem led_follows_mode (b : Software.build) (e0 : env) (es : list env) :
  let s := Software.run b es (Software.setup b e0) in
  let c := Code.run es (Code.setup e0) in
  Software.led s = Software_led_of (Software.power s) /\
  Code.led c = Code_led_of (Code.power c).
Proof. exact (led_follows_mode_aux b e0 es). Qed.

Lemma Software_loop_fault_flash b e s :
  statusOK e = false ->
  In (flashFast 10 (Arduino.max (Software.led (fst (Software.loop b e s))) Software.LED_LOW))
     (snd (Software.loop b e s)).
Proof.
  intros Hbad.
  unfold Software.loop, Software.process_button, Software.change_power, Software.readings.
  rewrite Hbad.
  destruct (Software.auto_resume b e s), (pressed e);
    destruct s as [bt bh bv pw lr lb ix fa le]; destruct pw; cbn; tauto.
Qed.

Lemma Code_loop_fault_flash e s :
  statusOK e = false ->
  In (flashFast 3 (Code.led (fst (Code.loop e s)))) (snd (Code.loop e s)).
Proof.
  intros Hbad. destruct s as [bt bh bv lr ix bu pw fa le].
  unfold Code.loop, Code.wait, Code.process_button, Code.change_power, Code.readings.
  rewrite Hbad. destruct (pressed e), bu, pw; cbn; tauto.
Qed.

(** The fault indication of a bad reading, in any reachable state: the
    5-sample firmware flashes ten times at the level of the mode and never
    below LED_LOW, so also when the mode is Off; the 10-sample firmware
    flashes three times at the bare level of the mode, which in Off is 0:
    there the indication cannot be seen. *)
Theorem fault_flash_level (b : Software.build) (e0 : env) (es : list env) (e : env) :
  statusOK e = false ->
  let s' := fst (Software.loop b e (Software.run b es (Software.setup b e0))) in
  let c' := fst (Code.loop e (Code.run es (Code.setup e0))) in
  In (flashFast 10 (match Software.power s' with
                    | high => Software.LED_HIGH
                    | _ => Software.LED_LOW
                    end))
     (snd (Software.loop b e (Software.run b es (Software.setup b e0))))
  /\
  In (flashFast 3 (match Code.power c' with
                   | high => Code.LED_HIGH
                   | low => Code.LED_LOW
                   | off => 0
                   end))
     (snd (Code.loop e (Code.run es (Code.setup e0)))).
Proof.
  intros Hbad s' c'.
  destruct (led_follows_mode_aux b e0 (es ++ [e])) as [Hs Hc].
  rewrite Software_run_snoc in Hs. rewrite Code_run_snoc in Hc.
  fold s' in Hs. fold c' in Hc. split.
  - pose proof (Software_loop_fault_flash b e
                  (Software.run b es (Software.setup b e0)) Hbad) as H. fold s' in H.
    rewrite Hs in H. destruct (Software.power s'); exact H.
  - pose proof (Code_loop_fault_flash e (Code.run es (Code.setup e0)) Hbad) as H.
    fold c' in H. rewrite Hc in H. destruct (Code.power c'); exact H.
Qed.

Lemma fault_flash_level_witness :
  let good := mkEnv true 0 0 0 20 50 240 true in
  let bad := mkEnv false 0 0 0 0 0 240 false in
  In (flashFast 10 10) (snd (Software.loop Software.production bad
                               (Software.run Software.production [good]
                                  (Software.setup Software.production good))))
  /\
  In (flashFast 3 0) (snd (Code.loop bad (Code.run [good] (Code.setup good)))).
Proof.
  intros good bad.
  exact (fault_flash_level Software.production good [good] bad eq_refl).
Defined.

(** A pass of the 5-sample firmware without a press leaves the mode or
    moves it one step up. *)
Lemma Software_pass_without_press b e s :
  pressed e = false ->
  let s' := fst (Software.loop b e s) in
  Software.power s' = Software.power s \/
  power_rank (Software.power s') = power_rank (Software.power s) + 1.
Proof.
  intros Hp s'. pose proof (Software_loop_mode b e s) as H. cbn zeta in H.
  fold s' in H. rewrite Hp, orb_false_r in H.
  destruct (Software.auto_resume b e s) eqn:Hauto.
  - right. destruct H as [-> _]. unfold Software.auto_resume in Hauto.
    apply andb_prop in Hauto. destruct Hauto as [Hmode _].
    destruct (Software.power s); try discriminate; reflexivity.
  - left. apply H.
Qed.

(** Without a press the mode of the 5-sample firmware never moves down and
    never moves into Off: over any sequence of passes without a press the
    mode is at least what it was, by at most one step per pass, and High
    stays High. *)
Theorem mode_never_falls_without_press
    (b : Software.build) (es : list env) (s : Software.state) :
  List.forallb (fun e => negb (pressed e)) es = true ->
  let s' := Software.run b es s in
  power_rank (Software.power s) <= power_rank (Software.power s')
    <= power_rank (Software.power s) + Z.of_nat (length es) /\
  (Software.power s = high -> Software.power s' = high) /\
  (Software.power s <> off -> Software.power s' <> off).
Proof.
  revert s. induction es as [|e es IH]; intros s Hall s'.
  - subst s'. cbn. repeat split; try lia; auto.
  - cbn [List.forallb] in Hall. apply andb_prop in Hall. destruct Hall as [He Hall].
    apply negb_true_iff in He.
    subst s'. cbn [Software.run]. specialize (IH (fst (Software.loop b e s)) Hall).
    cbn zeta in IH. destruct IH as (Hr & Hh & Ho).
    pose proof (Software_pass_without_press b e s He) as H1. cbn zeta in H1.
    cbn [length]. rewrite Nat2Z.inj_succ.
    assert (Hrank : forall p, 0 <= power_rank p <= 2) by (intros []; cbn; lia).
    pose proof (Hrank (Software.power s)).
    pose proof (Hrank (Software.power (fst (Software.loop b e s)))).
    pose proof (Hrank (Software.power (Software.run b es (fst (Software.loop b e s))))).
    split; [|split].
    + destruct H1 as [H1|H1]; rewrite H1 in *; lia.
    + intros Hhigh. apply Hh. destruct H1 as [H1|H1]; [congruence|].
      rewrite Hhigh in H1. cbn in H1. lia.
    + intros Hoff. apply Ho. intros Heq. destruct H1 as [H1|H1].
      * congruence.
      * rewrite Heq in H1. cbn in H1. lia.
Qed.

Lemma mode_never_falls_without_press_witness :
  let idle := mkEnv false 10801501 10802000 10803000 20 50 240 true in
  let press := mkEnv true 1000 1500 2000 20 50 240 true in
  let s := Software.run Software.production [press]
             (Software.setup Software.production idle) in
  power_rank (Software.power s)
  <= power_rank (Software.power (Software.run Software.production [idle; idle] s))
  <= power_rank (Software.power s) + 2.
Proof.
  intros idle press s.
  exact (proj1 (mode_never_falls_without_press Software.production [idle; idle] s eq_refl)).
Defined.

(** ** A bad reading by itself does not move the fan *)

Lemma Software_averages_of_buffers s s' :
  Software.t s' = Software.t s -> Software.h s' = Software.h s ->
  Software.v s' = Software.v s ->
  Software.tempAvg s' = Software.tempAvg s /\
  Software.humiAvg s' = Software.humiAvg s /\
  Software.voltAvg s' = Software.voltAvg s.
Proof.
  unfold Software.tempAvg, Software.humiAvg, Software.voltAvg.
  intros -> -> ->. repeat split; reflexivity.
Qed.

Lemma Code_averages_of_buffers s s' :
  Code.t s' = Code.t s -> Code.h s' = Code.h s -> Code.v s' = Code.v s ->
  Code.tempAvg s' = Code.tempAvg s /\
  Code.humiAvg s' = Code.humiAvg s /\
  Code.voltAvg s' = Code.voltAvg s.
Proof.
  unfold Code.tempAvg, Code.humiAvg, Code.voltAvg.
  intros -> -> ->. repeat split; reflexivity.
Qed.

(** In both firmwares, when a pass with a bad reading follows some other
    pass and does not change the mode, the fan keeps the duty that the
    pass before gave it: the decision is taken again, on the same
    samples. *)
Theorem bad_reading_alone_keeps_fan
    (b : Software.build) (e1 e2 : env) (s : Software.state) (c : Code.state) :
  statusOK e2 = false ->
  (let s1 := fst (Software.loop b e1 s) in
   let s2 := fst (Software.loop b e2 s1) in
   Software.power s2 = Software.power s1 -> Software.fan s2 = Software.fan s1)
  /\
  (let c1 := fst (Code.loop e1 c) in
   let c2 := fst (Code.loop e2 c1) in
   Code.power c2 = Code.power c1 -> Code.fan c2 = Code.fan c1).
Proof.
  intros Hbad. split.
  - intros s1 s2 Hp.
    pose proof (Software_loop_buffers b e2 s1) as Hb. cbn zeta in Hb.
    rewrite Hbad in Hb. fold s2 in Hb. destruct Hb as (Ht & Hh & Hv & _).
    destruct (Software_averages_of_buffers s1 s2 Ht Hh Hv) as (At & Ah & Av).
    unfold s2 at 1. rewrite Software_loop_fan. fold s2.
    rewrite At, Ah, Av, Hp. symmetry. apply Software_loop_fan.
  - intros c1 c2 Hp.
    pose proof (Code_loop_buffers e2 c1) as Hb. cbn zeta in Hb.
    rewrite Hbad in Hb. fold c2 in Hb. destruct Hb as (Ht & Hh & Hv & _).
    destruct (Code_averages_of_buffers c1 c2 Ht Hh Hv) as (At & Ah & Av).
    unfold c2 at 1. rewrite Code_loop_fan. fold c2.
    rewrite At, Ah, Av, Hp. symmetry. apply Code_loop_fan.
Qed.

Lemma bad_reading_alone_keeps_fan_witness :
  let hot := mkEnv false 0 0 0 31 50 240 true in
  let bad := mkEnv false 0 0 0 0 0 0 false in
  let s1 := fst (Software.loop Software.production hot
                   (Software.setup Software.production hot)) in
  Software.fan (fst (Software.loop Software.production bad s1)) = Software.fan s1.
Proof.
  intros hot bad s1.
  exact (proj1 (bad_reading_alone_keeps_fan Software.production hot bad
                  (Software.setup Software.production hot) (Code.setup hot) eq_refl)
           eq_refl).
Defined.

(** ** The waiting loops *)

Lemma hold_released held lows :
  Waiting.hold (replicate held true ++ false :: lows) = Some lows.
Proof. induction held as [|held IH]; [reflexivity|exact IH]. Qed.

(** The test that ends the loop once [lastRead] has been put back by
    CYCLETIME. *)
Lemma fast_exit_test C m2 m3 :
  0 <= C -> u32 (m3 - m2) + C < 4294967296 ->
  (u32 (m3 - u32 (m2 - C)) <? C) = false.
Proof.
  intros HC Hw. apply Z.ltb_ge. unfold u32 in *.
  rewrite Zminus_mod_idemp_r.
  replace (m3 - (m2 - C)) with ((m3 - m2) + C) by lia.
  rewrite <- Zplus_mod_idemp_l.
  pose proof (Z.mod_pos_bound (m3 - m2) 4294967296 ltac:(lia)).
  rewrite Z.mod_small; lia.
Qed.

(** In the 5-sample firmware a press that lasts over the two reads of the
    debounce ends the waiting loop as soon as the button is released,
    however long it was held and however much of the cycle was left:
    [button] is set and [lastRead] is put back by CYCLETIME, so that the
    very next test of the loop fails. *)
Theorem Software_press_ends_wait_at_once
    (C m m2 m3 : Z) (ticks : list Z) (held : nat) (lows : list bool)
    (button : bool) (lastRead : Z) :
  0 <= C -> u32 (m - lastRead) < C -> u32 (m3 - m2) + C < 4294967296 ->
  Waiting.software C (m :: m2 :: m3 :: ticks)
    (true :: true :: replicate held true ++ false :: lows) button lastRead
  = Some (true, u32 (m2 - C), ticks, lows).
Proof.
  intros HC Hin Hw. cbn [Waiting.software].
  destruct (Z.ltb_spec (u32 (m - lastRead)) C); [|lia].
  rewrite hold_released, fast_exit_test by assumption. reflexivity.
Qed.

Lemma Software_press_ends_wait_at_once_witness :
  Waiting.software 20000 [5000; 5400; 5400; 25400]
    [true; true; true; true; false; false] false 1000
  = Some (true, u32 (5400 - 20000), [25400], [false]).
Proof.
  apply (Software_press_ends_wait_at_once 20000 5000 5400 5400 [25400] 2 [false] false 1000);
    vm_compute; congruence.
Defined.

(** In the 10-sample firmware, which does not debounce, the first low read
    of the pin does the same. *)
Theorem Code_low_read_ends_wait_at_once
    (m m2 m3 : Z) (ticks : list Z) (lows : list bool) (lastRead : Z) :
  u32 (m - lastRead) < Code.CYCLETIME ->
  u32 (m3 - m2) + Code.CYCLETIME < 4294967296 ->
  Waiting.code (m :: m2 :: m3 :: ticks) (true :: lows) false lastRead
  = Some (true, u32 (m2 - Code.CYCLETIME), ticks, lows).
Proof.
  intros Hin Hw. cbn [Waiting.code andb negb].
  destruct (Z.ltb_spec (u32 (m - lastRead)) Code.CYCLETIME); [|lia].
  rewrite fast_exit_test; [reflexivity|unfold Code.CYCLETIME; lia|exact Hw].
Qed.

Lemma Code_low_read_ends_wait_at_once_witness :
  Waiting.code [5000; 5100; 5100; 15100] [true; false] false 1000
  = Some (true, u32 (5100 - 10000), [15100], [false]).
Proof.
  apply (Code_low_read_ends_wait_at_once 5000 5100 5100 [15100] [false] 1000);
    vm_compute; congruence.
Defined.

(** The debounce of the 5-sample firmware: the waiting loop ends with
    [button] set only if the pin was read low twice in a row; a pin that is
    never low on two successive reads registers no press. *)
Theorem Software_wait_needs_two_low_reads
    (C : Z) (ticks : list Z) (lows : list bool) (lastRead lastRead' : Z)
    (ticks' : list Z) (lows' : list bool) :
  Waiting.software C ticks lows false lastRead = Some (true, lastRead', ticks', lows') ->
  exists before after, lows = before ++ true :: true :: after.
Proof.
  revert lows lastRead. induction ticks as [|m ticks1 IH]; intros lows lastRead H.
  - discriminate.
  - cbn [Waiting.software] in H.
    destruct (u32 (m - lastRead) <? C); [|discriminate].
    destruct lows as [|[|] lows1]; [discriminate| |].
    + destruct lows1 as [|[|] lows2]; [discriminate| |].
      * exists [], lows2. reflexivity.
      * destruct (IH _ _ H) as (before & after & ->).
        exists (true :: false :: before), after. reflexivity.
    + destruct (IH _ _ H) as (before & after & ->).
      exists (false :: before), after. reflexivity.
Qed.

Lemma Software_wait_needs_two_low_reads_witness :
  exists before after,
    [false; true; true; false] = before ++ true :: true :: after.
Proof.
  apply (Software_wait_needs_two_low_reads 20000 [5000; 5100; 5400; 5400] 
           [false; true; true; false] 1000 (u32 (5400 - 20000)) [] []).
  vm_compute. reflexivity.
Defined.

(** Left alone, the waiting loop of the 5-sample firmware lasts until the
    clock is CYCLETIME past [lastRead] and changes nothing: it ends at the
    first reading of [millis()] that is, with [button] and [lastRead] as
    they were. *)
Theorem Software_wait_lasts_cycle_time
    (C : Z) (early : list Z) (m : Z) (ticks : list Z) (lows : list bool)
    (button : bool) (lastRead : Z) :
  Forall (fun x => u32 (x - lastRead) < C) early -> C <= u32 (m - lastRead) ->
  Waiting.software C (early ++ m :: ticks)
    (replicate (length early) false ++ lows) button lastRead
  = Some (button, lastRead, ticks, lows).
Proof.
  intros Hearly Hm. induction Hearly as [|x early Hx _ IH].
  - cbn [app length replicate Waiting.software].
    destruct (Z.ltb_spec (u32 (m - lastRead)) C); [lia|reflexivity].
  - cbn [app length replicate Waiting.software].
    destruct (Z.ltb_spec (u32 (x - lastRead)) C); [exact IH|lia].
Qed.

Lemma Software_wait_lasts_cycle_time_witness :
  Waiting.software 20000 [1100; 11000; 20900; 21000; 21100] [false; false; false; true]
    false 1000
  = Some (false, 1000, [21100], [true]).
Proof.
  apply (Software_wait_lasts_cycle_time 20000 [1100; 11000; 20900] 21000 [21100] [true]
           false 1000).
  - repeat constructor; vm_compute; reflexivity.
  - vm_compute. congruence.
Defined.

(** The initial [lastRead = -CYCLETIME] of both sketches ("force an
    immediate read cycle"): the first waiting loop after [setup()] ends at
    its first test, without a single poll of the button. *)
Theorem first_wait_is_immediate
    (b : Software.build) (e0 : env) (m : Z) (ticks : list Z) (lows : list bool) :
  0 <= Software.CYCLETIME b -> 0 <= m ->
  m + Software.CYCLETIME b < 4294967296 -> m + Code.CYCLETIME < 4294967296 ->
  Waiting.software (Software.CYCLETIME b) (m :: ticks) lows false
    (Software.lastRead (Software.setup b e0))
  = Some (false, Software.lastRead (Software.setup b e0), ticks, lows)
  /\
  Waiting.code (m :: ticks) lows (Code.button (Code.setup e0))
    (Code.lastRead (Code.setup e0))
  = Some (false, Code.lastRead (Code.setup e0), ticks, lows).
Proof.
  intros HC Hm Hs Hc.
  assert (Hexit : forall C, 0 <= C -> m + C < 4294967296 ->
                            (u32 (m - u32 (- C)) <? C) = false).
  { intros C H0 H1. apply Z.ltb_ge. unfold u32. rewrite Zminus_mod_idemp_r.
    replace (m - - C) with (m + C) by lia. rewrite Z.mod_small; lia. }
  split.
  - cbn [Waiting.software Software.setup Software.lastRead].
    rewrite Hexit by assumption. reflexivity.
  - cbn [Waiting.code Code.setup Code.lastRead Code.button].
    rewrite Hexit; [reflexivity|unfold Code.CYCLETIME; lia|exact Hc].
Qed.

Lemma first_wait_is_immediate_witness :
  let e0 := mkEnv false 0 0 0 20 50 240 true in
  Waiting.software 20000 [1300; 1400] [true] false
    (Software.lastRead (Software.setup Software.production e0))
  = Some (false, Software.lastRead (Software.setup Software.production e0), [1400], [true]).
Proof.
  intros e0.
  apply (proj1 (first_wait_is_immediate Software.production e0 1300 [1400] [true]
                  ltac:(simpl; lia) ltac:(lia) ltac:(simpl; lia)
                  ltac:(unfold Code.CYCLETIME; lia))).
Defined.

(** ** The first reading *)

(** [setup()] fills the buffers from the first reading that the driver
    reports as good and from nothing else: the bad ones before it only cost
    a round of flashes each in the 5-sample firmware, and as long as no
    reading is good [setup()] does not end, so that [loop()] never runs on
    buffers that were not filled. *)
Theorem setup_takes_first_good_reading
    (b : Software.build) (bad : list env) (good : env) (rest : list env) :
  Forall (fun e => statusOK e = false) bad -> statusOK good = true ->
  Setup.software b (bad ++ good :: rest)
  = Some (Software.setup b good,
          replicate (S (length bad)) (flashFast 3 Software.LED_HIGH))
  /\ Setup.code (bad ++ good :: rest)
     = Some (Code.setup good, [flashFast 3 Code.LED_HIGH])
  /\ Setup.software b bad = None
  /\ Setup.code bad = None.
Proof.
  intros Hbad Hgood. induction Hbad as [|e bad He _ IH].
  - cbn. rewrite Hgood. repeat split; reflexivity.
  - destruct IH as (H1 & H2 & H3 & H4).
    cbn [app Setup.software Setup.code length replicate].
    rewrite He, H1, H2, H3, H4. repeat split; reflexivity.
Qed.

Lemma setup_takes_first_good_reading_witness :
  let bad := mkEnv false 0 0 0 0 0 240 false in
  let good := mkEnv false 0 0 0 20 50 240 true in
  Setup.software Software.production [bad; bad; good; bad]
  = Some (Software.setup Software.production good,
          [flashFast 3 255; flashFast 3 255; flashFast 3 255]).
Proof.
  intros bad good.
  apply (proj1 (setup_takes_first_good_reading Software.production [bad; bad] good [bad]
                  ltac:(repeat constructor) eq_refl)).
Defined.

(** ** The DEVEL build *)

Lemma command_in_range vfloor C now c s :
  vfloor <= 350 -> Devel.in_range vfloor s ->
  Devel.in_range vfloor (Devel.command vfloor C now c s).
Proof.
  intros Hv (Ht & Hh & Hp). unfold Devel.command, Devel.in_range.
  repeat (destruct (Ascii.eqb c _);
          [cbn [Devel.Ptemp Devel.Phumi Devel.Pvolt];
           rewrite ?max_is_Zmax, ?min_is_Zmin; rewrite ?u8_small by lia;
           repeat split; lia|]).
  repeat split; lia.
Qed.

Lemma commands_in_range vfloor C cs : forall s,
  vfloor <= 350 -> Devel.in_range vfloor s ->
  Devel.in_range vfloor (Devel.commands vfloor C cs s).
Proof.
  unfold Devel.commands. induction cs as [|c cs IH]; intros s Hv Hs; [exact Hs|].
  cbn [fold_left]. apply IH; [exact Hv|]. apply command_in_range; assumption.
Qed.

(** Whatever is typed on the DigiUSB console of the DEVEL build, the
    simulated temperature stays within 0..40, the humidity within 0..100
    and the voltage within 100..350 (0..350 in the 10-sample firmware),
    the ranges that the real readings are constrained to; and a pass of the
    5-sample firmware that stores them, which it does without constraining
    them, leaves the buffers as well formed as a real reading would. *)
Theorem simulated_readings_stay_in_range
    (C lastRead0 : Z) (cs : list (ascii * Z)) (st : Software.state) :
  Devel.in_range 100 (Devel.commands 100 C cs (Devel.boot lastRead0)) /\
  Devel.in_range 0 (Devel.commands 0 C cs (Devel.boot lastRead0)) /\
  (Software_wf st ->
   Software_wf (Devel.readings (Devel.commands 100 C cs (Devel.boot lastRead0)) st)).
Proof.
  assert (H100 : Devel.in_range 100 (Devel.commands 100 C cs (Devel.boot lastRead0))).
  { apply commands_in_range; [lia|]. unfold Devel.in_range, Devel.boot. cbn. lia. }
  split; [exact H100|split].
  - apply commands_in_range; [lia|]. unfold Devel.in_range, Devel.boot. cbn. lia.
  - intros (Ht & Hh & Hv & Hi). destruct H100 as (Rt & Rh & Rv).
    unfold Software_wf, Devel.readings.
    cbn [Software.t Software.h Software.v Software.index
         Software.set_t Software.set_h Software.set_v Software.set_index].
    split; [|split; [|split]].
    + apply samples_insert; [exact Ht|exact Rt].
    + apply samples_insert; [exact Hh|exact Rh].
    + apply samples_insert; [exact Hv|]. rewrite u16_small; lia.
    + apply rem_index; lia.
Qed.

(** ** The calibration sketch *)

Lemma Calibrate_average_div n : 0 <= n < 4096 -> Calibrate.average n = n / 8.
Proof.
  intros Hn. unfold Calibrate.average.
  assert (Hall : below 512 (fun q => u16 (Arduino.round (Float32.of_int q)) =? q) = true)
    by (vm_compute; reflexivity).
  apply Z.eqb_eq. apply (below_spec _ _ Hall).
  split; [apply Z.div_pos; lia | apply Z.div_lt_upper_bound; lia].
Qed.

(** The voltage as printed, for every trimmed total that ten readings of
    the 10-bit converter can give: the digit after the point is a digit,
    and the number printed is the total times 0.0531 over 8, cut after the
    first decimal. *)
Lemma Calibrate_volts_exact vt :
  0 <= vt < 8185 ->
  0 <= snd (Calibrate.volts vt) <= 9 /\
  10 * fst (Calibrate.volts vt) + snd (Calibrate.volts vt) = vt * 531 / 8000.
Proof.
  intros Hvt.
  assert (Hall : below (Z.to_nat 8185)
            (fun vt => (0 <=? snd (Calibrate.volts vt))
                       && (snd (Calibrate.volts vt) <=? 9)
                       && (10 * fst (Calibrate.volts vt) + snd (Calibrate.volts vt)
                           =? vt * 531 / 8000)) = true)
    by (vm_compute; reflexivity).
  pose proof (below_spec _ _ Hall vt ltac:(lia)) as H. cbn beta in H.
  apply andb_prop in H. destruct H as [H H3]. apply andb_prop in H. destruct H as [H1 H2].
  apply Z.leb_le in H1, H2. apply Z.eqb_eq in H3. lia.
Qed.

(** What the calibration sketch prints for ten readings per channel,
    temperatures and humidities up to 255 and voltages as the 10-bit
    converter gives them: the temperature and the humidity are the trimmed
    totals over 8 with the fraction dropped ([round] is applied to a
    quotient of integers), and the voltage printed as [whole.tenth] is the
    trimmed total times 0.0531 over 8, cut, not rounded, after the first
    decimal. *)
Theorem calibration_report (t h v : list Z) :
  samples 10 255 t -> samples 10 255 h -> samples 10 1023 v ->
  let '(temp, humi, (whole, tenth)) := Calibrate.report t h v in
  temp = Spec.trimmed_total t / 8 /\
  humi = Spec.trimmed_total h / 8 /\
  0 <= tenth <= 9 /\
  10 * whole + tenth = Spec.trimmed_total v * 531 / 8000.
Proof.
  intros Ht Hh Hv. unfold Calibrate.report.
  rewrite (trim_scan_total 8 255 255 t Ht) by lia.
  rewrite (trim_scan_total 8 255 255 h Hh) by lia.
  rewrite (trim_scan_total 8 65534 1023 v Hv) by lia.
  assert (Hb : forall top l, samples 10 top l -> 0 <= top ->
                             0 <= Spec.trimmed_total l <= 8 * top).
  { intros top l Hs Htop.
    destruct (samples_cons2 8 top l Hs) as (x & y & l' & -> & Hl').
    destruct Hs as [_ Hall].
    pose proof (trimmed_bounds _ _ _ _ Hall) as B. rewrite Hl' in B.
    unfold Spec.trimmed_total. lia. }
  pose proof (Hb _ _ Ht ltac:(lia)). pose proof (Hb _ _ Hh ltac:(lia)).
  pose proof (Hb _ _ Hv ltac:(lia)).
  destruct (Calibrate.volts (Spec.trimmed_total v)) as [whole tenth] eqn:Hvolts.
  pose proof (Calibrate_volts_exact (Spec.trimmed_total v) ltac:(lia)) as Hx.
  rewrite Hvolts in Hx. cbn [fst snd] in Hx.
  rewrite !Calibrate_average_div by lia.
  repeat split; lia.
Qed.

Lemma calibration_report_witness :
  let '(temp, humi, (whole, tenth)) :=
    Calibrate.report (replicate 10 21) (replicate 10 55) (replicate 10 235) in
  temp = Spec.trimmed_total (replicate 10 21) / 8 /\
  humi = Spec.trimmed_total (replicate 10 55) / 8 /\
  0 <= tenth <= 9 /\
  10 * whole + tenth = Spec.trimmed_total (replicate 10 235) * 531 / 8000.
Proof.
  assert (Hrep : forall top x, 0 <= x <= top -> samples 10 top (replicate 10 x))
    by (intros top x Hx; split; [apply length_replicate|apply Forall_replicate; exact Hx]).
  exact (calibration_report (replicate 10 21) (replicate 10 55) (replicate 10 235)
           (Hrep 255 21 ltac:(lia)) (Hrep 255 55 ltac:(lia)) (Hrep 1023 235 ltac:(lia))).
Defined.

(** A buffer of ten readings of 235, the good-voltage limit of the
    firmwares, prints as 12.4. *)
Example calibration_of_VIN_GOOD :
  Calibrate.report (replicate 10 21) (replicate 10 55) (replicate 10 235)
  = (21, 55, (12, 4)).
Proof. vm_compute. reflexivity. Qed.

Lemma simulated_readings_stay_in_range_witness :
  let typed := [("T"%char, 0); ("v"%char, 0); ("x"%char, 0); ("b"%char, 5000)] in
  let st := Software.setup Software.production (mkEnv false 0 0 0 20 50 240 true) in
  Software_wf (Devel.readings (Devel.commands 100 3000 typed (Devel.boot 0)) st).
Proof.
  intros typed st.
  apply (proj2 (proj2 (simulated_readings_stay_in_range 3000 0 typed st))).
  apply Software_setup_wf.
Defined.

(** ** The auto-resume and the wrap of the clock *)

(** In the 5-sample firmware a pass without a press, made [elapsed]
    milliseconds after the last change of mode, changes the mode exactly
    when the mode is not High and [elapsed] exceeds RESUMETIME, and then by
    one step up; this holds across the wrap of [millis()] at 2^32 as long
    as [elapsed] itself is below 2^32 (about 49 days). *)
Theorem auto_resume_exactly_after_timeout
    (b : Software.build) (e : env) (s : Software.state) (elapsed : Z) :
  pressed e = false ->
  0 <= elapsed < 4294967296 ->
  millis_resume e = u32 (Software.lastButton s + elapsed) ->
  let s' := fst (Software.loop b e s) in
  (Software.power s <> high /\ Software.RESUMETIME b < elapsed ->
   power_rank (Software.power s') = power_rank (Software.power s) + 1) /\
  (Software.power s = high \/ elapsed <= Software.RESUMETIME b ->
   Software.power s' = Software.power s).
Proof.
  intros Hp He Hm s'.
  pose proof (Software_loop_mode b e s) as H. cbn zeta in H. fold s' in H.
  rewrite Hp, orb_false_r in H.
  assert (Hauto : Software.auto_resume b e s
                  = negb (powerstates_eqb (Software.power s) high)
                    && (Software.RESUMETIME b <? elapsed)).
  { unfold Software.auto_resume. rewrite Hm. unfold u32.
    rewrite Zminus_mod_idemp_l.
    replace (Software.lastButton s + elapsed - Software.lastButton s) with elapsed by lia.
    rewrite Z.mod_small by lia. reflexivity. }
  rewrite Hauto in H. split.
  - intros [Hmode Htime].
    apply powerstates_eqb_neq in Hmode. rewrite Hmode in H.
    destruct (Z.ltb_spec (Software.RESUMETIME b) elapsed); [|lia].
    cbn [negb andb] in H. destruct H as [-> _].
    destruct (Software.power s); try discriminate; reflexivity.
  - intros [Hmode|Htime].
    + rewrite Hmode in H. cbn in H. rewrite Hmode. apply H.
    + destruct (Z.ltb_spec (Software.RESUMETIME b) elapsed); [lia|].
      rewrite andb_false_r in H. apply H.
Qed.

Lemma auto_resume_exactly_after_timeout_witness :
  let press := mkEnv true 4294960000 4294960500 4294961000 20 50 240 true in
  let idle := mkEnv false 10793205 10794000 10795000 20 50 240 true in
  let s := Software.run Software.production [press]
             (Software.setup Software.production idle) in
  power_rank (Software.power (fst (Software.loop Software.production idle s)))
  = power_rank (Software.power s) + 1.
Proof.
  intros press idle s.
  apply (proj1 (auto_resume_exactly_after_timeout Software.production idle s 10800001
                  eq_refl ltac:(lia) eq_refl)).
  split; [discriminate|simpl; lia].
Defined.
